(** * JUnit reporter of config-file-validator

    A shallow embedding of [pkg/reporter/junit_reporter.go]: the report tree
    (the structs with their [xml] tags), [checkPropertyValidity],
    [getReport] and [JunitReporter.Print], followed by the properties the
    specification states about them.

    Go strings are byte strings and are modelled by [string] (one [ascii]
    per byte).  A pointer field [*T] is an [option T], [None] being the nil
    pointer; a slice is a [list]. *)

From Stdlib Require Import String Ascii List ZArith Lia Bool.
Import ListNotations.

Local Open Scope string_scope.
Local Open Scope Z_scope.

Set Implicit Arguments.

(* ================================================================== *)
(** ** Go runtime notions used by the reporter *)

(** An [error] value is represented by the text its [Error] method returns;
    the nil error is [None] of [option error]. *)
Definition error := string.

(** A function result that is either a value or an error. *)
Inductive result (A : Type) : Type :=
| Ok (a : A)
| Err (e : error).
Arguments Ok {A} a.
Arguments Err {A} e.

(** A call either returns or panics (here: a method call through a nil
    interface value). *)
Inductive Outcome (A : Type) : Type :=
| Returns (a : A)
| Panics.
Arguments Returns {A} a.
Arguments Panics {A}.

Module GoInt.

(** Go's [int] on the 64-bit targets: two's complement, wrapping. *)
Definition bits : Z := 64.
Definition MaxInt : Z := 2 ^ (bits - 1) - 1.
Definition MinInt : Z := - 2 ^ (bits - 1).

Definition wrap (z : Z) : Z := (z + 2 ^ (bits - 1)) mod 2 ^ bits - 2 ^ (bits - 1).

(** [n++] *)
Definition incr (n : Z) : Z := wrap (n + 1).

(** [len(s)]: the length of a slice is an [int]; a slice never has more than
    [MaxInt] elements, which the statements below assume of their input. *)
Definition len {A : Type} (s : list A) : Z := Z.of_nat (List.length s).

End GoInt.

Module Strings.

(** The functions of package [strings] the reporter calls. *)

Definition backslash : ascii := "\"%char.
Definition slash : ascii := "/"%char.

(** [strings.HasPrefix(s, p)] *)
Fixpoint HasPrefix (s p : string) : bool :=
  match p, s with
  | EmptyString, _ => true
  | String _ _, EmptyString => false
  | String a p', String b s' => Ascii.eqb a b && HasPrefix s' p'
  end.

(** [strings.Contains(s, substr)] *)
Fixpoint Contains (s substr : string) : bool :=
  HasPrefix s substr ||
  match s with
  | EmptyString => false
  | String _ s' => Contains s' substr
  end.

(** The scan of [strings.ReplaceAll]: occurrences of [old] are taken left to
    right and do not overlap; [skip] counts the bytes of the occurrence just
    replaced that are still to be passed over. *)
Fixpoint replaceScan (skip : nat) (s old new : string) : string :=
  match s with
  | EmptyString => EmptyString
  | String c s' =>
      match skip with
      | S k => replaceScan k s' old new
      | O =>
          if HasPrefix s old
          then new ++ replaceScan (Nat.pred (String.length old)) s' old new
          else String c (replaceScan 0 s' old new)
      end
  end.

(** [strings.ReplaceAll(s, old, new)] for a non-empty [old], as at its call
    site in [Print]; with an empty [old] Go inserts [new] at every rune
    boundary, which the reporter never asks for and which [s] stands for
    here. *)
Definition ReplaceAll (s old new : string) : string :=
  match old with
  | EmptyString => s
  | String _ _ => replaceScan 0 s old new
  end.

End Strings.

(* ================================================================== *)
(** ** The report tree *)

(** [xml.Name] *)
Record xmlName : Type := { Space : string; Local : string }.

Definition noName : xmlName := {| Space := ""; Local := "" |}.

(** [time.Time], reduced to what the encoder observes of it: the result of
    its [MarshalText] method (the RFC 3339 text, or an error for a year
    outside 0..9999). *)
Record time_Time : Type := { MarshalText : result string }.

(** [float32], as its IEEE 754 bit pattern. *)
Definition float32 := Z.

Module Property.
Record t : Type := {
  XMLName : xmlName;
  TextValue : string;
  Name : string;
  Value : string
}.
End Property.
Definition Property := Property.t.

Module SystemOut.
Record t : Type := { XMLName : xmlName; TextValue : string }.
End SystemOut.
Definition SystemOut := SystemOut.t.

Module SystemErr.
Record t : Type := { XMLName : xmlName; TextValue : string }.
End SystemErr.
Definition SystemErr := SystemErr.t.

Module Skipped.
Record t : Type := { XMLName : xmlName; Message : string }.
End Skipped.
Definition Skipped := Skipped.t.

Module TestcaseError.
Record t : Type := {
  XMLName : xmlName;
  Message : string;
  Type_ : string;
  TextValue : string
}.
End TestcaseError.
Definition TestcaseError := TestcaseError.t.

Module TestcaseFailure.
Record t : Type := {
  XMLName : xmlName;
  Message : string;
  Type_ : string;
  TextValue : string
}.
End TestcaseFailure.
Definition TestcaseFailure := TestcaseFailure.t.

Module Testcase.
Record t : Type := {
  XMLName : xmlName;
  Name : string;
  ClassName : string;
  Assertions : Z;
  Time : float32;
  File : string;
  Line : Z;
  Skipped : option Skipped;
  Properties : option (list Property);
  TestcaseError : option TestcaseError;
  TestcaseFailure : option TestcaseFailure
}.
End Testcase.
Definition Testcase := Testcase.t.

Module Testsuite.
Record t : Type := {
  XMLName : xmlName;
  Name : string;
  Tests : Z;
  Failures : Z;
  Errors : Z;
  Skipped : Z;
  Assertions : Z;
  Time : float32;
  Timestamp : option time_Time;
  File : string;
  Testcases : option (list Testcase);
  Properties : option (list Property);
  SystemOut : option SystemOut;
  SystemErr : option SystemErr
}.
End Testsuite.
Definition Testsuite := Testsuite.t.

Module Testsuites.
Record t : Type := {
  XMLName : xmlName;
  Name : string;
  Tests : Z;
  Failures : Z;
  Errors : Z;
  Skipped : Z;
  Assertions : Z;
  Time : float32;
  Timestamp : option time_Time;
  Testsuites : list Testsuite
}.
End Testsuites.
Definition Testsuites := Testsuites.t.

(** Modelled from the spec: [Report] is the value the validation
    collaborator hands to [Print]; its declaration is in another file of
    package [reporter]; [Print] reads the three fields below, which the
    specification describes as a file path, a validity flag and an error
    value.  [ValidationError] is an interface value: [None] is nil, [Some e]
    an error whose [Error()] is [e]. *)
Record Report : Type := {
  FilePath : string;
  IsValid : bool;
  ValidationError : option error
}.

(* ================================================================== *)
(** ** checkPropertyValidity *)

Definition nonEmpty (s : string) : bool := negb (String.eqb s "").

(** The loop over [*testsuite.Properties] (lines 103-109). *)
Fixpoint checkSuiteProperties (testsuite : Testsuite) (props : list Property)
  : option error :=
  match props with
  | [] => None
  | property :: rest =>
      if nonEmpty (Property.Value property) && nonEmpty (Property.TextValue property)
      then Some ("property " ++ Property.Name property ++ " in testsuite "
                 ++ Testsuite.Name testsuite
                 ++ " should contain value or a text value, not both")
      else checkSuiteProperties testsuite rest
  end.

(** The loop over [*testcase.Properties] (lines 118-124). *)
Fixpoint checkCaseProperties (testcase : Testcase) (props : list Property)
  : option error :=
  match props with
  | [] => None
  | property :: rest =>
      if nonEmpty (Property.Value property) && nonEmpty (Property.TextValue property)
      then Some ("property " ++ Property.Name property ++ " in testcase "
                 ++ Testcase.Name testcase
                 ++ " should contain value or a text value, not both")
      else checkCaseProperties testcase rest
  end.

(** The loop over [*testsuite.Testcases] (lines 113-125); a case without
    properties is passed over. *)
Fixpoint checkTestcases (testcases : list Testcase) : option error :=
  match testcases with
  | [] => None
  | testcase :: rest =>
      match Testcase.Properties testcase with
      | None => checkTestcases rest
      | Some props =>
          match checkCaseProperties testcase props with
          | Some err => Some err
          | None => checkTestcases rest
          end
      end
  end.

(** The outer loop (lines 98-126).  The first [continue] leaves the current
    suite as soon as its own [Properties] pointer is nil, before its cases
    are looked at. *)
Fixpoint checkSuites (suites : list Testsuite) : option error :=
  match suites with
  | [] => None
  | testsuite :: rest =>
      match Testsuite.Properties testsuite with
      | None => checkSuites rest
      | Some props =>
          match checkSuiteProperties testsuite props with
          | Some err => Some err
          | None =>
              match Testsuite.Testcases testsuite with
              | None => checkSuites rest
              | Some testcases =>
                  match checkTestcases testcases with
                  | Some err => Some err
                  | None => checkSuites rest
                  end
              end
          end
      end
  end.

Definition checkPropertyValidity (ts : Testsuites) : option error :=
  checkSuites (Testsuites.Testsuites ts).

(* ================================================================== *)
(** ** Print, first part: from the reports to the tree (lines 145-163) *)

Definition toolName : string := "config-file-validator".

(** Lines 149-151. *)
Definition normalizePath (filePath : string) : string :=
  if Strings.Contains filePath "\"
  then Strings.ReplaceAll filePath "\" "/"
  else filePath.

(** [Testcase{Name: ..., File: ..., ClassName: ...}]: the other fields have
    their zero value. *)
Definition newTestcase (filePath : string) : Testcase :=
  {| Testcase.XMLName := noName;
     Testcase.Name := filePath ++ " validation";
     Testcase.ClassName := toolName;
     Testcase.Assertions := 0;
     Testcase.Time := 0;
     Testcase.File := filePath;
     Testcase.Line := 0;
     Testcase.Skipped := None;
     Testcase.Properties := None;
     Testcase.TestcaseError := None;
     Testcase.TestcaseFailure := None |}.

(** [&TestcaseFailure{Message: msg}] *)
Definition newTestcaseFailure (msg : string) : TestcaseFailure :=
  {| TestcaseFailure.XMLName := noName;
     TestcaseFailure.Message := msg;
     TestcaseFailure.Type_ := "";
     TestcaseFailure.TextValue := "" |}.

(** [tc.TestcaseFailure = f] *)
Definition setTestcaseFailure (tc : Testcase) (f : option TestcaseFailure)
  : Testcase :=
  {| Testcase.XMLName := Testcase.XMLName tc;
     Testcase.Name := Testcase.Name tc;
     Testcase.ClassName := Testcase.ClassName tc;
     Testcase.Assertions := Testcase.Assertions tc;
     Testcase.Time := Testcase.Time tc;
     Testcase.File := Testcase.File tc;
     Testcase.Line := Testcase.Line tc;
     Testcase.Skipped := Testcase.Skipped tc;
     Testcase.Properties := Testcase.Properties tc;
     Testcase.TestcaseError := Testcase.TestcaseError tc;
     Testcase.TestcaseFailure := f |}.

(** The [for _, r := range reports] loop, with the two variables it updates.
    [r.ValidationError.Error()] on a nil interface value panics. *)
Fixpoint printLoop (reports : list Report) (testcases : list Testcase)
  (testErrors : Z) : Outcome (list Testcase * Z) :=
  match reports with
  | [] => Returns (testcases, testErrors)
  | r :: rest =>
      let filePath := normalizePath (FilePath r) in
      let tc := newTestcase filePath in
      if negb (IsValid r)
      then
        let testErrors := GoInt.incr testErrors in
        match ValidationError r with
        | None => Panics
        | Some e =>
            let tc := setTestcaseFailure tc (Some (newTestcaseFailure e)) in
            printLoop rest (testcases ++ [tc]) testErrors
        end
      else printLoop rest (testcases ++ [tc]) testErrors
  end.

(** [Testsuite{Name: ..., Testcases: &testcases, Errors: testErrors}] *)
Definition newTestsuite (testcases : list Testcase) (testErrors : Z)
  : Testsuite :=
  {| Testsuite.XMLName := noName;
     Testsuite.Name := toolName;
     Testsuite.Tests := 0;
     Testsuite.Failures := 0;
     Testsuite.Errors := testErrors;
     Testsuite.Skipped := 0;
     Testsuite.Assertions := 0;
     Testsuite.Time := 0;
     Testsuite.Timestamp := None;
     Testsuite.File := "";
     Testsuite.Testcases := Some testcases;
     Testsuite.Properties := None;
     Testsuite.SystemOut := None;
     Testsuite.SystemErr := None |}.

(** [Testsuites{Name: ..., Tests: len(reports), Testsuites: testsuiteBatch}] *)
Definition newTestsuites (tests : Z) (testsuiteBatch : list Testsuite)
  : Testsuites :=
  {| Testsuites.XMLName := noName;
     Testsuites.Name := toolName;
     Testsuites.Tests := tests;
     Testsuites.Failures := 0;
     Testsuites.Errors := 0;
     Testsuites.Skipped := 0;
     Testsuites.Assertions := 0;
     Testsuites.Time := 0;
     Testsuites.Timestamp := None;
     Testsuites.Testsuites := testsuiteBatch |}.

(** Lines 145-163 of [Print]: the value of [ts] when line 165 is reached. *)
Definition buildTestsuites (reports : list Report) : Outcome Testsuites :=
  match printLoop reports [] 0 with
  | Panics => Panics
  | Returns (testcases, testErrors) =>
      let testsuite := newTestsuite testcases testErrors in
      let testsuiteBatch := [testsuite] in
      Returns (newTestsuites (GoInt.len reports) testsuiteBatch)
  end.

(* ================================================================== *)
(** ** encoding/xml: how struct tags drive the encoder *)

Module XML.

(** The encoder is modelled up to the element tree it writes: which
    elements, under which names, with which attributes and which content,
    in which order.  The rules are those of [encoding/xml]'s [Marshal]
    documentation for the tag forms that occur in this file (a name, a
    [parent>child] chain, [attr], [chardata], [omitempty]); the flags
    [cdata], [innerxml], [comment] and [any] and name spaces occur in no tag
    here and are not modelled. *)

(** A value written as text: attribute values and character data. *)
Inductive Scalar : Type :=
| SString (s : string)
| SInt (n : Z)
| SFloat32 (f : float32).

#[warnings="-register-all"]
Inductive Node : Type :=
| Element (name : string) (attrs : list (string * Scalar)) (content : list Node)
| Text (v : Scalar).

(** What a struct field holds.  A nested struct is given by the result of
    marshalling it. *)
Inductive FieldValue : Type :=
| VString (s : string)
| VInt (n : Z)
| VFloat32 (f : float32)
| VTimePtr (t : option time_Time)
| VStructPtr (p : option (result Node))
| VStructs (l : list (result Node))
| VStructsPtr (p : option (list (result Node))).

Record Field : Type := {
  fieldName : string;
  tag : string;
  value : FieldValue
}.

Inductive Mode : Type := fElement | fAttr | fCharData.

Record fieldInfo : Type := {
  name : string;
  parents : list string;
  mode : Mode;
  omitEmpty : bool
}.

(** [strings.Split(s, sep)] for a one-byte separator. *)
Fixpoint Split (s : string) (sep : ascii) : list string :=
  match s with
  | EmptyString => [EmptyString]
  | String c s' =>
      if Ascii.eqb c sep then EmptyString :: Split s' sep
      else match Split s' sep with
           | [] => [String c EmptyString]
           | tok :: toks => String c tok :: toks
           end
  end.

Definition hasFlag (flag : string) (flags : list string) : bool :=
  existsb (String.eqb flag) flags.

Definition invalidTag (f : Field) : error :=
  "xml: invalid tag in field " ++ fieldName f ++ ": " ++ tag f.

(** [structFieldInfo]: the tag is [name,flag,...]; the name may be a chain
    [a>b>c] whose last component names the element; a field without a name
    in its tag goes by its Go name. *)
Definition structFieldInfo (f : Field) : result fieldInfo :=
  match Split (tag f) "," with
  | [] => Err (invalidTag f)
  | nameTok :: flags =>
      let attr := hasFlag "attr" flags in
      let chardata := hasFlag "chardata" flags in
      let omit := hasFlag "omitempty" flags in
      let chain := Split nameTok ">" in
      let last_ := List.last chain EmptyString in
      let nm := if String.eqb nameTok "" then fieldName f else last_ in
      let ps := if String.eqb nameTok "" then [] else List.removelast chain in
      match attr, chardata with
      | true, true => Err (invalidTag f)
      | true, false =>
          match ps with
          | [] => Ok {| name := nm; parents := []; mode := fAttr; omitEmpty := omit |}
          | _ :: _ => Err ("xml: " ++ tag f ++ " chain not valid with attr flag")
          end
      | false, true =>
          if negb (String.eqb nameTok "") || omit then Err (invalidTag f)
          else Ok {| name := nm; parents := []; mode := fCharData; omitEmpty := false |}
      | false, false =>
          if String.eqb last_ "" && negb (String.eqb nameTok "")
          then Err ("xml: trailing '>' in field " ++ fieldName f)
          else Ok {| name := nm; parents := ps; mode := fElement; omitEmpty := omit |}
      end
  end.

(** [v.Float() == 0] on the bit pattern: both signed zeros. *)
Definition floatIsZero (f : float32) : bool := Z.land f 2147483647 =? 0.

(** [isEmptyValue] *)
Definition isEmptyValue (v : FieldValue) : bool :=
  match v with
  | VString s => String.eqb s ""
  | VInt n => n =? 0
  | VFloat32 f => floatIsZero f
  | VTimePtr t => match t with None => true | Some _ => false end
  | VStructPtr p => match p with None => true | Some _ => false end
  | VStructs l => match l with [] => true | _ :: _ => false end
  | VStructsPtr p => match p with None => true | Some _ => false end
  end.

Definition isNilPointer (v : FieldValue) : bool :=
  match v with
  | VTimePtr None | VStructPtr None | VStructsPtr None => true
  | _ => false
  end.

Definition unsupported : error := "xml: unsupported type".

(** [marshalAttr]: what one attribute field adds to the start element.  Every
    [*time.Time] attribute of this file is [omitempty], so a nil pointer is
    dropped before it gets here; it adds nothing. *)
Definition marshalAttr (nm : string) (v : FieldValue)
  : result (list (string * Scalar)) :=
  match v with
  | VString s => Ok [(nm, SString s)]
  | VInt n => Ok [(nm, SInt n)]
  | VFloat32 f => Ok [(nm, SFloat32 f)]
  | VTimePtr None => Ok []
  | VTimePtr (Some t) =>
      match MarshalText t with
      | Ok text => Ok [(nm, SString text)]
      | Err e => Err e
      end
  | VStructPtr None | VStructsPtr None => Ok []
  | VStructPtr (Some _) | VStructs _ | VStructsPtr (Some _) => Err unsupported
  end.

(** The first pass of [marshalValue] over the fields: the attributes, in
    field order. *)
Fixpoint marshalAttrs (fields : list Field) : result (list (string * Scalar)) :=
  match fields with
  | [] => Ok []
  | f :: rest =>
      match structFieldInfo f with
      | Err e => Err e
      | Ok finfo =>
          match mode finfo with
          | fAttr =>
              if omitEmpty finfo && isEmptyValue (value f)
              then marshalAttrs rest
              else
                match marshalAttr (name finfo) (value f) with
                | Err e => Err e
                | Ok here =>
                    match marshalAttrs rest with
                    | Err e => Err e
                    | Ok more => Ok (here ++ more)%list
                    end
                end
          | _ => marshalAttrs rest
          end
      end
  end.

(** The nodes of a sequence of marshalled structs; the first error wins. *)
Fixpoint collect (items : list (result Node)) : result (list Node) :=
  match items with
  | [] => Ok []
  | Err e :: _ => Err e
  | Ok n :: rest =>
      match collect rest with
      | Err e => Err e
      | Ok ns => Ok (n :: ns)
      end
  end.

(** [marshalValue] of an element field that is not left out. *)
Definition marshalElement (nm : string) (v : FieldValue) : result (list Node) :=
  match v with
  | VString s => Ok [Element nm [] [Text (SString s)]]
  | VInt n => Ok [Element nm [] [Text (SInt n)]]
  | VFloat32 f => Ok [Element nm [] [Text (SFloat32 f)]]
  | VTimePtr None => Ok []
  | VTimePtr (Some t) =>
      match MarshalText t with
      | Ok text => Ok [Element nm [] [Text (SString text)]]
      | Err e => Err e
      end
  | VStructPtr None => Ok []
  | VStructPtr (Some r) => collect [r]
  | VStructs l => collect l
  | VStructsPtr None => Ok []
  | VStructsPtr (Some l) => collect l
  end.

(** The [parent>child] chain: the parents are opened around the field's
    elements. *)
Fixpoint wrapParents (ps : list string) (inner : list Node) : list Node :=
  match ps with
  | [] => inner
  | p :: ps' => [Element p [] (wrapParents ps' inner)]
  end.

(** Character data of a field. *)
Definition marshalCharData (v : FieldValue) : list Node :=
  match v with
  | VString s => [Text (SString s)]
  | VInt n => [Text (SInt n)]
  | VFloat32 f => [Text (SFloat32 f)]
  | _ => []
  end.

(** [marshalStruct]: the second pass, the content in field order.  The
    parents of a chain are pushed unless the field is a nil pointer, then the
    value is written unless [omitempty] leaves it out.  No struct of this
    file has two fields with a common parent, so each chain is closed right
    after its field. *)
Fixpoint marshalContent (fields : list Field) : result (list Node) :=
  match fields with
  | [] => Ok []
  | f :: rest =>
      match structFieldInfo f with
      | Err e => Err e
      | Ok finfo =>
          match mode finfo with
          | fAttr => marshalContent rest
          | fCharData =>
              match marshalContent rest with
              | Err e => Err e
              | Ok more => Ok (marshalCharData (value f) ++ more)%list
              end
          | fElement =>
              let inner :=
                if omitEmpty finfo && isEmptyValue (value f) then Ok []
                else marshalElement (name finfo) (value f) in
              match inner with
              | Err e => Err e
              | Ok nodes =>
                  let here :=
                    if isNilPointer (value f) then nodes
                    else wrapParents (parents finfo) nodes in
                  match marshalContent rest with
                  | Err e => Err e
                  | Ok more => Ok (here ++ more)%list
                  end
              end
          end
      end
  end.

(** The name of the start element: the tag of the [XMLName] field, else the
    value of that field.  Every struct of this file tags its [XMLName], so
    the later fall-backs (the parent's field name, the type name) are not
    reached. *)
Definition startName (xmlNameTag : string) (XMLName : xmlName) : string :=
  if String.eqb xmlNameTag "" then Local XMLName else xmlNameTag.

(** [marshalValue] of a struct: start element with the attributes, content,
    end element. *)
Definition marshalStruct (xmlNameTag : string) (XMLName : xmlName)
  (fields : list Field) : result Node :=
  match marshalAttrs fields with
  | Err e => Err e
  | Ok attrs =>
      match marshalContent fields with
      | Err e => Err e
      | Ok content => Ok (Element (startName xmlNameTag XMLName) attrs content)
      end
  end.

End XML.

(* ================================================================== *)
(** ** The struct declarations, as the encoder reads them *)

(** Per struct: its fields in declaration order, each with its [xml] tag as
    written in the source, and the encoding of a value of the struct; the
    first argument of [XML.marshalStruct] is the tag of the [XMLName]
    field. *)

Import XML.

Definition field (goName tag : string) (v : FieldValue) : Field :=
  {| fieldName := goName; tag := tag; value := v |}.

Definition propertyFields (p : Property) : list Field :=
  [ field "TextValue" ",chardata" (VString (Property.TextValue p));
    field "Name" "name,attr" (VString (Property.Name p));
    field "Value" "value,attr,omitempty" (VString (Property.Value p)) ].

Definition marshalProperty (p : Property) : result Node :=
  marshalStruct "property" (Property.XMLName p) (propertyFields p).

Definition systemOutFields (o : SystemOut) : list Field :=
  [ field "TextValue" ",chardata" (VString (SystemOut.TextValue o)) ].

Definition marshalSystemOut (o : SystemOut) : result Node :=
  marshalStruct "system-out" (SystemOut.XMLName o) (systemOutFields o).

Definition systemErrFields (e : SystemErr) : list Field :=
  [ field "TextValue" ",chardata" (VString (SystemErr.TextValue e)) ].

Definition marshalSystemErr (e : SystemErr) : result Node :=
  marshalStruct "system-err" (SystemErr.XMLName e) (systemErrFields e).

Definition skippedFields (s : Skipped) : list Field :=
  [ field "Message" "message,attr" (VString (Skipped.Message s)) ].

Definition marshalSkipped (s : Skipped) : result Node :=
  marshalStruct "skipped" (Skipped.XMLName s) (skippedFields s).

Definition testcaseErrorFields (e : TestcaseError) : list Field :=
  [ field "Message" "message,omitempty" (VString (TestcaseError.Message e));
    field "Type" "type,omitempty" (VString (TestcaseError.Type_ e));
    field "TextValue" ",chardata" (VString (TestcaseError.TextValue e)) ].

Definition marshalTestcaseError (e : TestcaseError) : result Node :=
  marshalStruct "error" (TestcaseError.XMLName e) (testcaseErrorFields e).

Definition testcaseFailureFields (f : TestcaseFailure) : list Field :=
  [ field "Message" "message,omitempty" (VString (TestcaseFailure.Message f));
    field "Type" "type,omitempty" (VString (TestcaseFailure.Type_ f));
    field "TextValue" ",chardata" (VString (TestcaseFailure.TextValue f)) ].

Definition marshalTestcaseFailure (f : TestcaseFailure) : result Node :=
  marshalStruct "failure" (TestcaseFailure.XMLName f) (testcaseFailureFields f).

Definition testcaseFields (tc : Testcase) : list Field :=
  [ field "Name" "name,attr" (VString (Testcase.Name tc));
    field "ClassName" "classname,attr" (VString (Testcase.ClassName tc));
    field "Assertions" "assertions,attr,omitempty" (VInt (Testcase.Assertions tc));
    field "Time" "time,attr,omitempty" (VFloat32 (Testcase.Time tc));
    field "File" "file,attr,omitempty" (VString (Testcase.File tc));
    field "Line" "line,attr,omitempty" (VInt (Testcase.Line tc));
    field "Skipped" "skipped,omitempty,omitempty"
      (VStructPtr (option_map marshalSkipped (Testcase.Skipped tc)));
    field "Properties" "properties>property,omitempty"
      (VStructsPtr (option_map (map marshalProperty) (Testcase.Properties tc)));
    field "TestcaseError" "error,omitempty"
      (VStructPtr (option_map marshalTestcaseError (Testcase.TestcaseError tc)));
    field "TestcaseFailure" "failure,omitempty"
      (VStructPtr (option_map marshalTestcaseFailure (Testcase.TestcaseFailure tc))) ].

Definition marshalTestcase (tc : Testcase) : result Node :=
  marshalStruct "testcase" (Testcase.XMLName tc) (testcaseFields tc).

Definition testsuiteFields (s : Testsuite) : list Field :=
  [ field "Name" "name,attr" (VString (Testsuite.Name s));
    field "Tests" "tests,attr,omitempty" (VInt (Testsuite.Tests s));
    field "Failures" "failures,attr,omitempty" (VInt (Testsuite.Failures s));
    field "Errors" "errors,attr,omitempty" (VInt (Testsuite.Errors s));
    field "Skipped" "skipped,attr,omitempty" (VInt (Testsuite.Skipped s));
    field "Assertions" "assertions,attr,omitempty" (VInt (Testsuite.Assertions s));
    field "Time" "time,attr,omitempty" (VFloat32 (Testsuite.Time s));
    field "Timestamp" "timestamp,attr,omitempty" (VTimePtr (Testsuite.Timestamp s));
    field "File" "file,attr,omitempty" (VString (Testsuite.File s));
    field "Testcases" "testcase,omitempty"
      (VStructsPtr (option_map (map marshalTestcase) (Testsuite.Testcases s)));
    field "Properties" "properties>property,omitempty"
      (VStructsPtr (option_map (map marshalProperty) (Testsuite.Properties s)));
    field "SystemOut" "system-out,omitempty"
      (VStructPtr (option_map marshalSystemOut (Testsuite.SystemOut s)));
    field "SystemErr" "system-err,omitempty"
      (VStructPtr (option_map marshalSystemErr (Testsuite.SystemErr s))) ].

Definition marshalTestsuite (s : Testsuite) : result Node :=
  marshalStruct "testsuite" (Testsuite.XMLName s) (testsuiteFields s).

Definition testsuitesFields (ts : Testsuites) : list Field :=
  [ field "Name" "name,attr,omitempty" (VString (Testsuites.Name ts));
    field "Tests" "tests,attr,omitempty" (VInt (Testsuites.Tests ts));
    field "Failures" "failures,attr,omitempty" (VInt (Testsuites.Failures ts));
    field "Errors" "errors,attr,omitempty" (VInt (Testsuites.Errors ts));
    field "Skipped" "skipped,attr,omitempty" (VInt (Testsuites.Skipped ts));
    field "Assertions" "assertions,attr,omitempty" (VInt (Testsuites.Assertions ts));
    field "Time" "time,attr,omitempty" (VFloat32 (Testsuites.Time ts));
    field "Timestamp" "timestamp,attr,omitempty" (VTimePtr (Testsuites.Timestamp ts));
    field "Testsuites" "testsuite"
      (VStructs (map marshalTestsuite (Testsuites.Testsuites ts))) ].

Definition marshalTestsuites (ts : Testsuites) : result Node :=
  marshalStruct "testsuites" (Testsuites.XMLName ts) (testsuitesFields ts).

(* ================================================================== *)
(** ** getReport and the second part of Print *)

(** What a call can change: the bytes written to standard output so far.
    [marshalCalls] counts the calls of [xml.MarshalIndent], so that "the
    encoder was not run" can be said of a call. *)
Record World : Type := {
  stdout : string;
  marshalCalls : nat
}.

Definition newline : string := String (Ascii.ascii_of_nat 10) EmptyString.
Definition quote : string := String (Ascii.ascii_of_nat 34) EmptyString.

Definition Header : string :=
  "<?xml version=" ++ quote ++ "1.0" ++ quote
  ++ " encoding=" ++ quote ++ "UTF-8" ++ quote ++ "?>" ++ newline.

(** [fmt.Println(s)]: the operand and a newline go to standard output. *)
Definition Println (s : string) (w : World) : World :=
  {| stdout := stdout w ++ s ++ newline; marshalCalls := marshalCalls w |}.

Section Printing.

(** The printer of [encoding/xml]: the bytes of an element tree for a given
    prefix and indent (escaping, number formatting, line breaks).  It cannot
    fail, and the reporter does not depend on what it writes. *)
Variable writeIndented : string -> string -> Node -> string.

(** [xml.MarshalIndent(ts, prefix, indent)] *)
Definition MarshalIndent (ts : Testsuites) (prefix indent : string) (w : World)
  : (string * option error) * World :=
  let w' := {| stdout := stdout w; marshalCalls := S (marshalCalls w) |} in
  match marshalTestsuites ts with
  | Ok node => ((writeIndented prefix indent node, None), w')
  | Err e => ((EmptyString, Some e), w')
  end.

Definition getReport (ts : Testsuites) (w : World)
  : (string * option error) * World :=
  match checkPropertyValidity ts with
  | Some err => ((EmptyString, Some err), w)
  | None =>
      match MarshalIndent ts " " "  " w with
      | ((_, Some err), w') => ((EmptyString, Some err), w')
      | ((data, None), w') => ((data, None), w')
      end
  end.

(** Lines 165-170 of [Print], for the tree [ts] built by the lines before. *)
Definition printTestsuites (ts : Testsuites) (w : World)
  : option error * World :=
  match getReport ts w with
  | ((_, Some err), w') => (Some err, w')
  | ((data, None), w') => (None, Println (Header ++ data) w')
  end.

Definition Print (reports : list Report) (w : World)
  : Outcome (option error) * World :=
  match buildTestsuites reports with
  | Panics => (Panics, w)
  | Returns ts =>
      let '(err, w') := printTestsuites ts w in (Returns err, w')
  end.

End Printing.

(* ================================================================== *)
(** ** Vocabulary of the statements *)

(** The input contract of [Print]: an invalid record carries an error. *)
Definition inputContract (reports : list Report) : Prop :=
  Forall (fun r => IsValid r = false -> ValidationError r <> None) reports.

(** The input is a Go slice: its length is an [int]. *)
Definition fitsInt (reports : list Report) : Prop :=
  GoInt.len reports <= GoInt.MaxInt.

Definition countInvalid (reports : list Report) : nat :=
  List.length (filter (fun r => negb (IsValid r)) reports).

(** The byte a path byte becomes. *)
Definition toSlash (c : ascii) : ascii :=
  if Ascii.eqb c Strings.backslash then Strings.slash else c.

(** How the case built for a report relates to the report. *)
Definition builtFrom (r : Report) (tc : Testcase) : Prop :=
  let filePath := normalizePath (FilePath r) in
  if IsValid r
  then tc = newTestcase filePath
  else exists e, ValidationError r = Some e /\
                 tc = setTestcaseFailure (newTestcase filePath)
                        (Some (newTestcaseFailure e)).

(** Whether a start element carries the attribute [a]. *)
Definition hasAttr (a : string) (attrs : list (string * Scalar)) : bool :=
  existsb (fun p => String.eqb a (fst p)) attrs.

(** Whether the field [f] of a struct puts the attribute [a] on the start
    element of that struct. *)
Definition emitsAttr (a : string) (f : Field) : bool :=
  match structFieldInfo f with
  | Ok finfo =>
      match mode finfo with
      | fAttr =>
          String.eqb a (name finfo)
          && negb (omitEmpty finfo && isEmptyValue (value f))
          && negb (isNilPointer (value f))
      | _ => false
      end
  | Err _ => false
  end.

Definition isSome {A : Type} (o : option A) : bool :=
  match o with Some _ => true | None => false end.

(** The example input of the specification. *)
Definition sampleReports : list Report :=
  [ {| FilePath := "cfg/a.yaml"; IsValid := true; ValidationError := None |};
    {| FilePath := "cfg\b.yaml"; IsValid := false;
       ValidationError := Some "bad key" |} ].

Definition invalidReport : Report :=
  {| FilePath := "a.yaml"; IsValid := false; ValidationError := Some "bad key" |}.

(** A property with both a [value] attribute and inline text. *)
Definition bothValues : Property :=
  {| Property.XMLName := noName;
     Property.TextValue := "y";
     Property.Name := "p";
     Property.Value := "x" |}.

(** A property whose name is the empty string. *)
Definition unnamedProperty : Property :=
  {| Property.XMLName := noName;
     Property.TextValue := "";
     Property.Name := "";
     Property.Value := "" |}.

(** A skipped marker without a message. *)
Definition silentSkipped : Skipped :=
  {| Skipped.XMLName := noName; Skipped.Message := "" |}.

Definition caseWith (props : option (list Property)) : Testcase :=
  {| Testcase.XMLName := noName;
     Testcase.Name := "c";
     Testcase.ClassName := "k";
     Testcase.Assertions := 0;
     Testcase.Time := 0;
     Testcase.File := "";
     Testcase.Line := 0;
     Testcase.Skipped := None;
     Testcase.Properties := props;
     Testcase.TestcaseError := None;
     Testcase.TestcaseFailure := None |}.

Definition suiteWith (props : option (list Property))
  (cases : option (list Testcase)) : Testsuite :=
  {| Testsuite.XMLName := noName;
     Testsuite.Name := "s";
     Testsuite.Tests := 0;
     Testsuite.Failures := 0;
     Testsuite.Errors := 0;
     Testsuite.Skipped := 0;
     Testsuite.Assertions := 0;
     Testsuite.Time := 0;
     Testsuite.Timestamp := None;
     Testsuite.File := "";
     Testsuite.Testcases := cases;
     Testsuite.Properties := props;
     Testsuite.SystemOut := None;
     Testsuite.SystemErr := None |}.

(** One suite without properties of its own, whose only case carries
    [bothValues]. *)
Definition caseViolation : Testsuites :=
  newTestsuites 1 [suiteWith None (Some [caseWith (Some [bothValues])])].

(** The same, the suite having an empty property list of its own. *)
Definition caseViolationChecked : Testsuites :=
  newTestsuites 1 [suiteWith (Some []) (Some [caseWith (Some [bothValues])])].

(** One suite that carries [bothValues] itself. *)
Definition suiteViolation : Testsuites :=
  newTestsuites 1 [suiteWith (Some [bothValues]) (Some [caseWith None])].

(** A stand-in for the printer where a statement is run on an example: it
    writes the name of the root element and nothing else. *)
Definition rootNameOnly (prefix indent : string) (n : Node) : string :=
  match n with
  | Element nm _ _ => nm
  | Text _ => EmptyString
  end.

(** The world before anything ran. *)
Definition emptyWorld : World := {| stdout := ""; marshalCalls := 0 |}.

(** *** Vocabulary for the validator *)

(** The test of lines 105 and 120. *)
Definition violates (p : Property) : bool :=
  nonEmpty (Property.Value p) && nonEmpty (Property.TextValue p).

(** The error of line 106. *)
Definition suiteError (s : Testsuite) (p : Property) : error :=
  "property " ++ Property.Name p ++ " in testsuite " ++ Testsuite.Name s
  ++ " should contain value or a text value, not both".

(** The error of line 121. *)
Definition caseError (tc : Testcase) (p : Property) : error :=
  "property " ++ Property.Name p ++ " in testcase " ++ Testcase.Name tc
  ++ " should contain value or a text value, not both".

(** The properties the validator looks at, in the order it looks at them,
    each with the error it raises for it. *)
Definition caseFindings (tc : Testcase) : list (Property * error) :=
  match Testcase.Properties tc with
  | None => []
  | Some props => map (fun p => (p, caseError tc p)) props
  end.

Definition suiteFindings (s : Testsuite) : list (Property * error) :=
  match Testsuite.Properties s with
  | None => []
  | Some props =>
      (map (fun p => (p, suiteError s p)) props
       ++ match Testsuite.Testcases s with
          | None => []
          | Some tcs => flat_map caseFindings tcs
          end)%list
  end.

Definition examined (ts : Testsuites) : list (Property * error) :=
  flat_map suiteFindings (Testsuites.Testsuites ts).

Definition firstViolation (l : list (Property * error)) : option error :=
  option_map snd (find (fun c => violates (fst c)) l).

(** A record that makes [Print] panic. *)
Definition offending (r : Report) : Prop :=
  IsValid r = false /\ ValidationError r = None.

(** *** Vocabulary for the encoded tree *)

(** The attribute [a], left out when its field is empty. *)
Definition unlessEmpty (empty : bool) (a : string) (v : Scalar)
  : list (string * Scalar) :=
  if empty then [] else [(a, v)].

(** The child element [nm] holding [text], left out when [text] is empty. *)
Definition textChild (nm text : string) : list Node :=
  if nonEmpty text then [Element nm [] [Text (SString text)]] else [].

(** What is behind a pointer, nothing for nil. *)
Definition pointee {A : Type} (node : A -> Node) (p : option A) : list Node :=
  match p with
  | None => []
  | Some a => [node a]
  end.

Definition propertyNode (p : Property) : Node :=
  Element "property"
    (("name", SString (Property.Name p))
     :: unlessEmpty (String.eqb (Property.Value p) "") "value"
          (SString (Property.Value p)))
    [Text (SString (Property.TextValue p))].

Definition propertiesNodes (p : option (list Property)) : list Node :=
  match p with
  | None => []
  | Some props => [Element "properties" [] (map propertyNode props)]
  end.

Definition skippedNode (k : Skipped) : Node :=
  Element "skipped" [("message", SString (Skipped.Message k))] [].

Definition errorNode (e : TestcaseError) : Node :=
  Element "error" []
    (textChild "message" (TestcaseError.Message e)
     ++ textChild "type" (TestcaseError.Type_ e)
     ++ [Text (SString (TestcaseError.TextValue e))])%list.

Definition failureNode (f : TestcaseFailure) : Node :=
  Element "failure" []
    (textChild "message" (TestcaseFailure.Message f)
     ++ textChild "type" (TestcaseFailure.Type_ f)
     ++ [Text (SString (TestcaseFailure.TextValue f))])%list.

Definition systemOutNode (o : SystemOut) : Node :=
  Element "system-out" [] [Text (SString (SystemOut.TextValue o))].

Definition systemErrNode (e : SystemErr) : Node :=
  Element "system-err" [] [Text (SString (SystemErr.TextValue e))].

(** The element of a case: its attributes in field order, then the skipped
    marker, the properties, the error and the failure. *)
Definition testcaseNode (tc : Testcase) : Node :=
  Element "testcase"
    ([("name", SString (Testcase.Name tc));
      ("classname", SString (Testcase.ClassName tc))]
     ++ unlessEmpty (Testcase.Assertions tc =? 0) "assertions"
          (SInt (Testcase.Assertions tc))
     ++ unlessEmpty (floatIsZero (Testcase.Time tc)) "time"
          (SFloat32 (Testcase.Time tc))
     ++ unlessEmpty (String.eqb (Testcase.File tc) "") "file"
          (SString (Testcase.File tc))
     ++ unlessEmpty (Testcase.Line tc =? 0) "line" (SInt (Testcase.Line tc)))%list
    (pointee skippedNode (Testcase.Skipped tc)
     ++ propertiesNodes (Testcase.Properties tc)
     ++ pointee errorNode (Testcase.TestcaseError tc)
     ++ pointee failureNode (Testcase.TestcaseFailure tc))%list.

(** The [timestamp] attribute of a suite or of the document: none for a nil
    pointer, else the text of the time, or the error of formatting it. *)
Definition timestampAttr (t : option time_Time)
  : result (list (string * Scalar)) :=
  match t with
  | None => Ok []
  | Some t =>
      match MarshalText t with
      | Ok text => Ok [("timestamp", SString text)]
      | Err e => Err e
      end
  end.

Definition casesNodes (p : option (list Testcase)) : list Node :=
  match p with
  | None => []
  | Some tcs => map testcaseNode tcs
  end.

(** The element of a suite, given its [timestamp] attribute. *)
Definition testsuiteNode (s : Testsuite) (stamp : list (string * Scalar))
  : Node :=
  Element "testsuite"
    ([("name", SString (Testsuite.Name s))]
     ++ unlessEmpty (Testsuite.Tests s =? 0) "tests" (SInt (Testsuite.Tests s))
     ++ unlessEmpty (Testsuite.Failures s =? 0) "failures"
          (SInt (Testsuite.Failures s))
     ++ unlessEmpty (Testsuite.Errors s =? 0) "errors" (SInt (Testsuite.Errors s))
     ++ unlessEmpty (Testsuite.Skipped s =? 0) "skipped"
          (SInt (Testsuite.Skipped s))
     ++ unlessEmpty (Testsuite.Assertions s =? 0) "assertions"
          (SInt (Testsuite.Assertions s))
     ++ unlessEmpty (floatIsZero (Testsuite.Time s)) "time"
          (SFloat32 (Testsuite.Time s))
     ++ stamp
     ++ unlessEmpty (String.eqb (Testsuite.File s) "") "file"
          (SString (Testsuite.File s)))%list
    (casesNodes (Testsuite.Testcases s)
     ++ propertiesNodes (Testsuite.Properties s)
     ++ pointee systemOutNode (Testsuite.SystemOut s)
     ++ pointee systemErrNode (Testsuite.SystemErr s))%list.

(** The root element, given its [timestamp] attribute and the elements of
    its suites. *)
Definition testsuitesNode (ts : Testsuites) (stamp : list (string * Scalar))
  (suites : list Node) : Node :=
  Element "testsuites"
    (unlessEmpty (String.eqb (Testsuites.Name ts) "") "name"
       (SString (Testsuites.Name ts))
     ++ unlessEmpty (Testsuites.Tests ts =? 0) "tests" (SInt (Testsuites.Tests ts))
     ++ unlessEmpty (Testsuites.Failures ts =? 0) "failures"
          (SInt (Testsuites.Failures ts))
     ++ unlessEmpty (Testsuites.Errors ts =? 0) "errors"
          (SInt (Testsuites.Errors ts))
     ++ unlessEmpty (Testsuites.Skipped ts =? 0) "skipped"
          (SInt (Testsuites.Skipped ts))
     ++ unlessEmpty (Testsuites.Assertions ts =? 0) "assertions"
          (SInt (Testsuites.Assertions ts))
     ++ unlessEmpty (floatIsZero (Testsuites.Time ts)) "time"
          (SFloat32 (Testsuites.Time ts))
     ++ stamp)%list
    suites.

(** The element [Print] has written for a report. *)
Definition reportNode (r : Report) : Node :=
  let filePath := normalizePath (FilePath r) in
  Element "testcase"
    ([("name", SString (filePath ++ " validation"));
      ("classname", SString "config-file-validator")]
     ++ unlessEmpty (String.eqb filePath "") "file" (SString filePath))%list
    (if IsValid r then []
     else match ValidationError r with
          | None => []
          | Some e =>
              [Element "failure" []
                 (textChild "message" e ++ [Text (SString "")])%list]
          end).

(** Sequencing of two parts of an encoding, of which the second may fail. *)
Definition andThen {A : Type} (here : list A) (r : result (list A))
  : result (list A) :=
  match r with
  | Ok more => Ok (here ++ more)%list
  | Err e => Err e
  end.

(** The time of a timestamp pointer can be formatted. *)
Definition stampOk (t : option time_Time) : Prop :=
  forall t', t = Some t' -> exists text, MarshalText t' = Ok text.

(* ================================================================== *)
(** ** Properties *)

(** *** Go integers and strings *)

Lemma incr_small (n : Z) :
  0 <= n < GoInt.MaxInt -> GoInt.incr n = n + 1.
Proof.
  unfold GoInt.incr, GoInt.wrap, GoInt.MaxInt, GoInt.bits. intros H.
  rewrite Z.mod_small; lia.
Qed.

Lemma HasPrefix_single (a c : ascii) (s : string) :
  Strings.HasPrefix (String c s) (String a EmptyString) = Ascii.eqb a c.
Proof.
  simpl. destruct s; apply andb_true_r.
Qed.

Lemma replaceScan_single_get (a b : ascii) (s : string) (n : nat) :
  String.get n (Strings.replaceScan 0 s (String a EmptyString) (String b EmptyString))
  = option_map (fun c => if Ascii.eqb c a then b else c) (String.get n s).
Proof.
  revert n. induction s as [|c s IH]; intros n.
  - reflexivity.
  - cbn [Strings.replaceScan]. rewrite HasPrefix_single.
    rewrite (Ascii.eqb_sym a c).
    destruct (Ascii.eqb c a) eqn:E; cbn [String.length Nat.pred];
      destruct n as [|n]; simpl; try rewrite E; auto.
Qed.

Lemma Contains_single_false (a : ascii) (s : string) :
  Strings.Contains s (String a EmptyString) = false ->
  forall n c, String.get n s = Some c -> Ascii.eqb c a = false.
Proof.
  induction s as [|c0 s IH]; intros H n c G.
  - destruct n; discriminate.
  - cbn [Strings.Contains] in H. rewrite HasPrefix_single in H.
    apply orb_false_iff in H. destruct H as [H1 H2].
    destruct n as [|n]; simpl in G.
    + inversion G; subst. now rewrite Ascii.eqb_sym.
    + eauto.
Qed.

Lemma normalizePath_get (filePath : string) (n : nat) :
  String.get n (normalizePath filePath)
  = option_map toSlash (String.get n filePath).
Proof.
  unfold normalizePath, toSlash.
  destruct (Strings.Contains filePath "\") eqn:E.
  - unfold Strings.ReplaceAll. apply replaceScan_single_get.
  - destruct (String.get n filePath) as [c|] eqn:G; [|reflexivity].
    simpl. unfold Strings.backslash.
    now rewrite (Contains_single_false _ _ E _ G).
Qed.

(** *** The loop of Print *)

Lemma Forall2_nth_error_left {A B : Type} (R : A -> B -> Prop)
  (l : list A) (l' : list B) :
  Forall2 R l l' ->
  forall i a, nth_error l i = Some a ->
  exists b, nth_error l' i = Some b /\ R a b.
Proof.
  induction 1 as [|x y l l' Hxy _ IH]; intros i a Hi.
  - destruct i; discriminate.
  - destruct i as [|i]; simpl in *.
    + inversion Hi; subst. eauto.
    + eauto.
Qed.


Lemma printLoop_returns (reports : list Report) :
  inputContract reports ->
  forall (acc : list Testcase) (n : Z),
  exists cases n',
    printLoop reports acc n = Returns ((acc ++ cases)%list, n') /\
    Forall2 builtFrom reports cases.
Proof.
  induction 1 as [|r rest Hr _ IH]; intros acc n.
  - exists [], n. simpl. rewrite app_nil_r. auto.
  - cbn [printLoop]. destruct (IsValid r) eqn:V; cbn [negb].
    + destruct (IH (acc ++ [newTestcase (normalizePath (FilePath r))])%list n)
        as (cases & n' & E & F).
      exists (newTestcase (normalizePath (FilePath r)) :: cases), n'.
      rewrite E, <- app_assoc. split; [reflexivity|].
      constructor; [|exact F]. unfold builtFrom. now rewrite V.
    + destruct (ValidationError r) as [e|] eqn:VE; [|now destruct Hr].
      destruct (IH (acc ++ [setTestcaseFailure
                              (newTestcase (normalizePath (FilePath r)))
                              (Some (newTestcaseFailure e))])%list
                   (GoInt.incr n))
        as (cases & n' & E & F).
      eexists (_ :: cases), n'.
      rewrite E, <- app_assoc. split; [reflexivity|].
      constructor; [|exact F]. unfold builtFrom. rewrite V. eauto.
Qed.

Lemma printLoop_counts (reports : list Report) :
  forall (acc cases : list Testcase) (n n' : Z),
  printLoop reports acc n = Returns (cases, n') ->
  0 <= n ->
  n + GoInt.len reports <= GoInt.MaxInt ->
  n' = n + Z.of_nat (countInvalid reports).
Proof.
  unfold GoInt.len, countInvalid.
  induction reports as [|r rest IH]; intros acc cases n n' E Hn Hlen.
  - simpl in *. inversion E. lia.
  - cbn [printLoop] in E. cbn [List.length filter] in *.
    destruct (IsValid r); cbn [negb] in *.
    + apply IH in E; lia.
    + destruct (ValidationError r); [|discriminate].
      rewrite incr_small in E by lia.
      apply IH in E; cbn [List.length]; lia.
Qed.

Lemma printLoop_panics (reports : list Report) :
  forall (acc : list Testcase) (n : Z),
  printLoop reports acc n = Panics ->
  exists r, In r reports /\ IsValid r = false /\ ValidationError r = None.
Proof.
  induction reports as [|r rest IH]; intros acc n E.
  - discriminate.
  - cbn [printLoop] in E. destruct (IsValid r) eqn:V; cbn [negb] in E.
    + destruct (IH _ _ E) as (r' & I & H). exists r'. simpl. tauto.
    + destruct (ValidationError r) eqn:VE.
      * destruct (IH _ _ E) as (r' & I & H). exists r'. simpl. tauto.
      * exists r. simpl. tauto.
Qed.

Lemma buildTestsuites_returns (reports : list Report) :
  inputContract reports ->
  exists cases n',
    printLoop reports [] 0 = Returns (cases, n') /\
    buildTestsuites reports
    = Returns (newTestsuites (GoInt.len reports) [newTestsuite cases n']) /\
    Forall2 builtFrom reports cases.
Proof.
  intros H. destruct (printLoop_returns H [] 0) as (cases & n' & E & F).
  simpl in E. exists cases, n'. unfold buildTestsuites. rewrite E. auto.
Qed.

Lemma builtFrom_nth (reports : list Report) (cases : list Testcase) :
  Forall2 builtFrom reports cases ->
  forall i r, nth_error reports i = Some r ->
  exists tc, nth_error cases i = Some tc /\ builtFrom r tc.
Proof.
  apply Forall2_nth_error_left.
Qed.

(** *** The tree Print builds *)

(** C10: when every record with [IsValid == false] carries an error value,
    [Print] never calls [Error()] through a nil interface: neither the
    building of the tree nor the whole call panics. *)
Theorem C10_no_nil_dereference (reports : list Report) :
  inputContract reports ->
  buildTestsuites reports <> Panics /\
  forall writeIndented w, fst (Print writeIndented reports w) <> Panics.
Proof.
  intros H. destruct (buildTestsuites_returns H) as (cases & n' & _ & E & _).
  split.
  - rewrite E. discriminate.
  - intros wr w. unfold Print. rewrite E.
    destruct (printTestsuites wr _ w). simpl. discriminate.
Qed.

(** The panic of the model is exactly the nil dereference: it needs a record
    that is invalid and has no error value. *)
Lemma buildTestsuites_panics (reports : list Report) :
  buildTestsuites reports = Panics ->
  exists r, In r reports /\ IsValid r = false /\ ValidationError r = None.
Proof.
  unfold buildTestsuites. intros E.
  destruct (printLoop reports [] 0) as [[cases n']|] eqn:L; [discriminate|].
  eapply printLoop_panics; eauto.
Qed.

(** C2: the case of an invalid record has a failure record whose message is
    the text of the record's error, the suite's [Errors] is the number of
    invalid records, and the case of a valid record has no failure, error or
    skipped record. *)
Theorem C2_failure_records (reports : list Report) :
  inputContract reports ->
  fitsInt reports ->
  exists ts suite cases,
    buildTestsuites reports = Returns ts /\
    Testsuites.Testsuites ts = [suite] /\
    Testsuite.Testcases suite = Some cases /\
    Testsuite.Errors suite = Z.of_nat (countInvalid reports) /\
    forall i r, nth_error reports i = Some r ->
      exists tc, nth_error cases i = Some tc /\
        (IsValid r = false ->
           exists e f, ValidationError r = Some e /\
                       Testcase.TestcaseFailure tc = Some f /\
                       TestcaseFailure.Message f = e) /\
        (IsValid r = true ->
           Testcase.TestcaseFailure tc = None /\
           Testcase.TestcaseError tc = None /\
           Testcase.Skipped tc = None).
Proof.
  intros H Hfit.
  destruct (buildTestsuites_returns H) as (cases & n' & L & E & F).
  exists (newTestsuites (GoInt.len reports) [newTestsuite cases n']),
         (newTestsuite cases n'), cases.
  repeat split; auto.
  - simpl. apply printLoop_counts in L; [lia | lia | exact Hfit].
  - intros i r Hi. destruct (builtFrom_nth F _ Hi) as (tc & Htc & B).
    exists tc. split; [exact Htc|]. unfold builtFrom in B.
    destruct (IsValid r).
    + subst tc. split; [discriminate|]. intros _. simpl. auto.
    + destruct B as (e & VE & ->). split; [|discriminate].
      intros _. exists e, (newTestcaseFailure e). simpl. auto.
Qed.

(** C7 (as amended): an invalid record becomes a [failure] node, never an
    [error] node: its case has a [TestcaseFailure] and no [TestcaseError]. *)
Theorem C7_invalid_results_become_failures (reports : list Report) :
  inputContract reports ->
  exists ts suite cases,
    buildTestsuites reports = Returns ts /\
    Testsuites.Testsuites ts = [suite] /\
    Testsuite.Testcases suite = Some cases /\
    forall i r, nth_error reports i = Some r -> IsValid r = false ->
      exists tc, nth_error cases i = Some tc /\
        Testcase.TestcaseFailure tc <> None /\
        Testcase.TestcaseError tc = None.
Proof.
  intros H.
  destruct (buildTestsuites_returns H) as (cases & n' & L & E & F).
  exists (newTestsuites (GoInt.len reports) [newTestsuite cases n']),
         (newTestsuite cases n'), cases.
  repeat split; auto.
  intros i r Hi V. destruct (builtFrom_nth F _ Hi) as (tc & Htc & B).
  exists tc. split; [exact Htc|]. unfold builtFrom in B. rewrite V in B.
  destruct B as (e & _ & ->). simpl. split; [discriminate|reflexivity].
Qed.


(** The example of the specification. *)
Example normalizePath_example :
  normalizePath "a\b\c.yaml" = "a/b/c.yaml".
Proof. reflexivity. Qed.

(** *** The encoder on the structs of the report *)

Lemma hasAttr_app (a : string) (l l' : list (string * Scalar)) :
  hasAttr a (l ++ l')%list = hasAttr a l || hasAttr a l'.
Proof.
  apply existsb_app.
Qed.

Lemma marshalAttr_hasAttr (a nm : string) (v : FieldValue)
  (here : list (string * Scalar)) :
  marshalAttr nm v = Ok here ->
  hasAttr a here = String.eqb a nm && negb (isNilPointer v).
Proof.
  destruct v as [s|n|f|[t|]|[r|]|l|[l|]]; simpl; intros E;
    try discriminate; try (inversion E; subst; simpl;
      now rewrite ?orb_false_r, ?andb_true_r, ?andb_false_r).
  destruct (MarshalText t); inversion E; subst; simpl.
  now rewrite orb_false_r, andb_true_r.
Qed.

Lemma marshalAttrs_hasAttr (a : string) (fields : list Field) :
  forall attrs, marshalAttrs fields = Ok attrs ->
  hasAttr a attrs = existsb (emitsAttr a) fields.
Proof.
  induction fields as [|f rest IH]; intros attrs E.
  - inversion E. reflexivity.
  - cbn [marshalAttrs] in E. cbn [existsb]. unfold emitsAttr at 1.
    destruct (structFieldInfo f) as [finfo|]; [|discriminate].
    destruct (mode finfo); try (rewrite (IH _ E); reflexivity).
    destruct (omitEmpty finfo && isEmptyValue (value f)).
    + rewrite (IH _ E). cbn [negb]. now rewrite andb_false_r.
    + destruct (marshalAttr (name finfo) (value f)) as [here|] eqn:A;
        [|discriminate].
      destruct (marshalAttrs rest) as [more|]; [|discriminate].
      inversion E; subst. rewrite hasAttr_app, (IH _ eq_refl).
      rewrite (marshalAttr_hasAttr a _ _ A). cbn [negb].
      now rewrite andb_true_r.
Qed.

Lemma marshalStruct_attrs (xmlNameTag : string) (XMLName : xmlName)
  (fields : list Field) (nm : string) (attrs : list (string * Scalar))
  (content : list Node) :
  marshalStruct xmlNameTag XMLName fields = Ok (Element nm attrs content) ->
  nm = startName xmlNameTag XMLName /\
  marshalAttrs fields = Ok attrs /\
  marshalContent fields = Ok content.
Proof.
  unfold marshalStruct.
  destruct (marshalAttrs fields); [|discriminate].
  destruct (marshalContent fields); [|discriminate].
  intros E. inversion E. auto.
Qed.

Lemma collect_total {A : Type} (f : A -> result Node) (l : list A) :
  (forall x, In x l -> exists n, f x = Ok n) ->
  exists ns, collect (map f l) = Ok ns /\ List.length ns = List.length l.
Proof.
  induction l as [|x l IH]; intros H.
  - exists []. auto.
  - destruct (H x (or_introl eq_refl)) as [n E].
    destruct IH as (ns & Ens & Len); [intros; apply H; now right|].
    exists (n :: ns). simpl. rewrite E, Ens. simpl. auto.
Qed.

(** A case built by [Print] always encodes. *)
Lemma marshalTestcase_built (r : Report) (tc : Testcase) :
  builtFrom r tc -> exists n, marshalTestcase tc = Ok n.
Proof.
  unfold builtFrom. generalize (normalizePath (FilePath r)) as p. intros p B.
  destruct (IsValid r).
  - subst tc. unfold marshalTestcase, marshalStruct, newTestcase. cbn.
    destruct (p =? "")%string; cbn; eauto.
  - destruct B as (e & _ & ->).
    unfold marshalTestcase, marshalStruct, newTestcase. cbn.
    destruct (p =? "")%string; destruct (e =? "")%string; cbn; eauto.
Qed.

Lemma builtFrom_In (reports : list Report) (cases : list Testcase) :
  Forall2 builtFrom reports cases ->
  forall tc, In tc cases -> exists r, builtFrom r tc.
Proof.
  induction 1 as [|r tc0 l l' B _ IH]; intros tc I.
  - destruct I.
  - destruct I as [<-|I]; eauto.
Qed.

(** The tree [Print] builds passes the validator and encodes. *)
Lemma built_tree_encodes (reports : list Report) (cases : list Testcase)
  (n' : Z) :
  Forall2 builtFrom reports cases ->
  let ts := newTestsuites (GoInt.len reports) [newTestsuite cases n'] in
  checkPropertyValidity ts = None /\
  exists node, marshalTestsuites ts = Ok node.
Proof.
  intros F ts. split; [reflexivity|].
  destruct (@collect_total _ marshalTestcase cases) as (ns & Ens & _).
  { intros tc I. destruct (builtFrom_In F _ I) as [r B].
    eapply marshalTestcase_built; eauto. }
  unfold ts, marshalTestsuites, marshalStruct, newTestsuites.
  cbn -[GoInt.len marshalTestsuite].
  assert (S : exists sn, marshalTestsuite (newTestsuite cases n') = Ok sn).
  { unfold marshalTestsuite, marshalStruct, newTestsuite.
    cbn -[marshalTestcase]. rewrite Ens.
    destruct (n' =? 0); cbn; eauto. }
  destruct S as [sn ->].
  destruct (GoInt.len reports =? 0); cbn; eauto.
Qed.


(** The encoding functions, unfolded once. *)
Lemma marshalTestsuites_unfold (ts : Testsuites) :
  marshalTestsuites ts
  = marshalStruct "testsuites" (Testsuites.XMLName ts) (testsuitesFields ts).
Proof. unfold marshalTestsuites. reflexivity. Qed.

Lemma marshalTestsuite_unfold (s : Testsuite) :
  marshalTestsuite s
  = marshalStruct "testsuite" (Testsuite.XMLName s) (testsuiteFields s).
Proof. unfold marshalTestsuite. reflexivity. Qed.

Lemma marshalTestcase_unfold (tc : Testcase) :
  marshalTestcase tc
  = marshalStruct "testcase" (Testcase.XMLName tc) (testcaseFields tc).
Proof. unfold marshalTestcase. reflexivity. Qed.

Lemma marshalProperty_unfold (p : Property) :
  marshalProperty p
  = marshalStruct "property" (Property.XMLName p) (propertyFields p).
Proof. unfold marshalProperty. reflexivity. Qed.

Lemma marshalSkipped_unfold (k : Skipped) :
  marshalSkipped k
  = marshalStruct "skipped" (Skipped.XMLName k) (skippedFields k).
Proof. unfold marshalSkipped. reflexivity. Qed.

Lemma marshalTestcaseFailure_unfold (f : TestcaseFailure) :
  marshalTestcaseFailure f
  = marshalStruct "failure" (TestcaseFailure.XMLName f) (testcaseFailureFields f).
Proof. unfold marshalTestcaseFailure. reflexivity. Qed.

Lemma marshalTestcaseError_unfold (e : TestcaseError) :
  marshalTestcaseError e
  = marshalStruct "error" (TestcaseError.XMLName e) (testcaseErrorFields e).
Proof. unfold marshalTestcaseError. reflexivity. Qed.

Ltac unfold_marshal E :=
  rewrite ?marshalTestsuites_unfold, ?marshalTestsuite_unfold,
    ?marshalTestcase_unfold, ?marshalProperty_unfold, ?marshalSkipped_unfold,
    ?marshalTestcaseFailure_unfold, ?marshalTestcaseError_unfold in E.

Ltac eval_infos :=
  repeat match goal with
  | |- context [structFieldInfo ?f] =>
      let r := eval vm_compute in (structFieldInfo f) in
      replace (structFieldInfo f) with r by (vm_compute; reflexivity)
  end.

Ltac eval_eqbs :=
  repeat match goal with
  | |- context [String.eqb ?a ?b] =>
      is_ground a; is_ground b;
      let r := eval vm_compute in (String.eqb a b) in
      replace (String.eqb a b) with r by (vm_compute; reflexivity)
  end.

(** Reads off, from the tags, when the attribute of the goal is written. *)
Ltac attr_rule A :=
  rewrite (marshalAttrs_hasAttr _ _ A);
  unfold testsuitesFields, testsuiteFields, testcaseFields, propertyFields,
    skippedFields, existsb, emitsAttr;
  eval_infos;
  cbn [mode name omitEmpty value field isEmptyValue isNilPointer];
  eval_eqbs;
  cbn [andb orb negb];
  rewrite ?andb_true_r, ?orb_false_r;
  try reflexivity;
  match goal with
  | |- context [match ?o with Some _ => _ | None => _ end] =>
      destruct o; reflexivity
  end.

(** C8 (as amended): an attribute is left out exactly when its field has the
    zero value, except [name] on a suite, a case and a property, [classname]
    on a case and [message] on a skipped marker, which are always written,
    also when empty. *)
Theorem C8_attribute_omission :
  (forall (ts : Testsuites) nm attrs content,
      marshalTestsuites ts = Ok (Element nm attrs content) ->
      hasAttr "name" attrs = nonEmpty (Testsuites.Name ts) /\
      hasAttr "tests" attrs = negb (Testsuites.Tests ts =? 0) /\
      hasAttr "failures" attrs = negb (Testsuites.Failures ts =? 0) /\
      hasAttr "errors" attrs = negb (Testsuites.Errors ts =? 0) /\
      hasAttr "skipped" attrs = negb (Testsuites.Skipped ts =? 0) /\
      hasAttr "assertions" attrs = negb (Testsuites.Assertions ts =? 0) /\
      hasAttr "time" attrs = negb (floatIsZero (Testsuites.Time ts)) /\
      hasAttr "timestamp" attrs = isSome (Testsuites.Timestamp ts)) /\
  (forall (s : Testsuite) nm attrs content,
      marshalTestsuite s = Ok (Element nm attrs content) ->
      hasAttr "name" attrs = true /\
      hasAttr "tests" attrs = negb (Testsuite.Tests s =? 0) /\
      hasAttr "failures" attrs = negb (Testsuite.Failures s =? 0) /\
      hasAttr "errors" attrs = negb (Testsuite.Errors s =? 0) /\
      hasAttr "skipped" attrs = negb (Testsuite.Skipped s =? 0) /\
      hasAttr "assertions" attrs = negb (Testsuite.Assertions s =? 0) /\
      hasAttr "time" attrs = negb (floatIsZero (Testsuite.Time s)) /\
      hasAttr "timestamp" attrs = isSome (Testsuite.Timestamp s) /\
      hasAttr "file" attrs = nonEmpty (Testsuite.File s)) /\
  (forall (tc : Testcase) nm attrs content,
      marshalTestcase tc = Ok (Element nm attrs content) ->
      hasAttr "name" attrs = true /\
      hasAttr "classname" attrs = true /\
      hasAttr "assertions" attrs = negb (Testcase.Assertions tc =? 0) /\
      hasAttr "time" attrs = negb (floatIsZero (Testcase.Time tc)) /\
      hasAttr "file" attrs = nonEmpty (Testcase.File tc) /\
      hasAttr "line" attrs = negb (Testcase.Line tc =? 0)) /\
  (forall (p : Property) nm attrs content,
      marshalProperty p = Ok (Element nm attrs content) ->
      hasAttr "name" attrs = true /\
      hasAttr "value" attrs = nonEmpty (Property.Value p)) /\
  (forall (k : Skipped) nm attrs content,
      marshalSkipped k = Ok (Element nm attrs content) ->
      hasAttr "message" attrs = true).
Proof.
  repeat apply conj; intros x nm attrs content E; unfold_marshal E;
    destruct (marshalStruct_attrs _ _ _ E) as (_ & A & _);
    repeat apply conj; attr_rule A.
Qed.

(** C4: a failure record is written without any attribute; a non-empty
    message is the child element [message], a non-empty type the child
    element [type], and the body the character data that follows them. *)
Theorem C4_failure_message_is_a_child_element (f : TestcaseFailure) :
  marshalTestcaseFailure f
  = Ok (Element "failure" []
          ((if nonEmpty (TestcaseFailure.Message f)
            then [Element "message" [] [Text (SString (TestcaseFailure.Message f))]]
            else [])
           ++ (if nonEmpty (TestcaseFailure.Type_ f)
               then [Element "type" [] [Text (SString (TestcaseFailure.Type_ f))]]
               else [])
           ++ [Text (SString (TestcaseFailure.TextValue f))])%list).
Proof.
  unfold marshalTestcaseFailure, marshalStruct, testcaseFailureFields, nonEmpty.
  cbn.
  destruct (TestcaseFailure.Message f =? "")%string;
    destruct (TestcaseFailure.Type_ f =? "")%string; reflexivity.
Qed.

(** An error record is written the same way. *)
Lemma marshalTestcaseError_shape (e : TestcaseError) :
  marshalTestcaseError e
  = Ok (Element "error" []
          ((if nonEmpty (TestcaseError.Message e)
            then [Element "message" [] [Text (SString (TestcaseError.Message e))]]
            else [])
           ++ (if nonEmpty (TestcaseError.Type_ e)
               then [Element "type" [] [Text (SString (TestcaseError.Type_ e))]]
               else [])
           ++ [Text (SString (TestcaseError.TextValue e))])%list).
Proof.
  unfold marshalTestcaseError, marshalStruct, testcaseErrorFields, nonEmpty.
  cbn.
  destruct (TestcaseError.Message e =? "")%string;
    destruct (TestcaseError.Type_ e =? "")%string; reflexivity.
Qed.

(** The skipped marker, next to it in the source, does carry its message as
    an attribute. *)
Lemma marshalSkipped_shape (k : Skipped) :
  marshalSkipped k
  = Ok (Element "skipped" [("message", SString (Skipped.Message k))] []).
Proof. reflexivity. Qed.

(** What [Print] hands to the printer for one invalid record. *)
Example invalid_report_tree :
  exists ts, buildTestsuites [invalidReport] = Returns ts /\
  marshalTestsuites ts
  = Ok (Element "testsuites"
          [("name", SString "config-file-validator"); ("tests", SInt 1)]
          [Element "testsuite"
             [("name", SString "config-file-validator"); ("errors", SInt 1)]
             [Element "testcase"
                [("name", SString "a.yaml validation");
                 ("classname", SString "config-file-validator");
                 ("file", SString "a.yaml")]
                [Element "failure" []
                   [Element "message" [] [Text (SString "bad key")];
                    Text (SString "")]]]]).
Proof.
  exists (newTestsuites 1
            [newTestsuite
               [setTestcaseFailure (newTestcase "a.yaml")
                  (Some (newTestcaseFailure "bad key"))] 1]).
  split; vm_compute; reflexivity.
Qed.

(** *** The validator, getReport and the output *)

Lemma append_length (a b : string) :
  String.length (a ++ b) = (String.length a + String.length b)%nat.
Proof.
  induction a as [|c a IH]; simpl; [reflexivity | now rewrite IH].
Qed.

Lemma append_assoc (a b c : string) : (a ++ b) ++ c = a ++ b ++ c.
Proof.
  induction a as [|x a IH]; simpl; [reflexivity | now rewrite IH].
Qed.

Section PrintingProperties.

Variable writeIndented : string -> string -> Node -> string.

Lemma getReport_rejected (ts : Testsuites) (e : error) (w : World) :
  checkPropertyValidity ts = Some e ->
  getReport writeIndented ts w = ((EmptyString, Some e), w).
Proof.
  intros H. unfold getReport. now rewrite H.
Qed.

Lemma getReport_encoded (ts : Testsuites) (node : Node) (w : World) :
  checkPropertyValidity ts = None ->
  marshalTestsuites ts = Ok node ->
  getReport writeIndented ts w
  = ((writeIndented " " "  " node, None),
     {| stdout := stdout w; marshalCalls := S (marshalCalls w) |}).
Proof.
  intros H M. unfold getReport, MarshalIndent. now rewrite H, M.
Qed.

Lemma printTestsuites_encoded (ts : Testsuites) (node : Node) (w : World) :
  checkPropertyValidity ts = None ->
  marshalTestsuites ts = Ok node ->
  printTestsuites writeIndented ts w
  = (None,
     {| stdout := stdout w ++ Header ++ writeIndented " " "  " node ++ newline;
        marshalCalls := S (marshalCalls w) |}).
Proof.
  intros H M. unfold printTestsuites. rewrite (@getReport_encoded ts node w H M).
  unfold Println. cbn [stdout marshalCalls]. now rewrite append_assoc.
Qed.

(** On an error of [getReport] the output is as it was. *)
Lemma printTestsuites_error (ts : Testsuites) (e : error) (w w' : World) :
  printTestsuites writeIndented ts w = (Some e, w') ->
  stdout w' = stdout w.
Proof.
  unfold printTestsuites, getReport, MarshalIndent.
  destruct (checkPropertyValidity ts).
  - intros E. inversion E. reflexivity.
  - destruct (marshalTestsuites ts); intros E; inversion E. reflexivity.
Qed.

(** Under the input contract [Print] returns nil and writes the header, the
    encoded tree and a newline. *)
Lemma Print_succeeds (reports : list Report) (w : World) :
  inputContract reports ->
  exists ts node,
    buildTestsuites reports = Returns ts /\
    marshalTestsuites ts = Ok node /\
    Print writeIndented reports w
    = (Returns None,
       {| stdout := stdout w ++ Header ++ writeIndented " " "  " node ++ newline;
          marshalCalls := S (marshalCalls w) |}).
Proof.
  intros H. destruct (buildTestsuites_returns H) as (cases & n' & _ & E & F).
  destruct (built_tree_encodes n' F) as (V & node & M).
  eexists _, node. split; [exact E|]. split; [exact M|].
  unfold Print. rewrite E. now rewrite (@printTestsuites_encoded _ node w V M).
Qed.

End PrintingProperties.

(** C1: the property [bothValues] on a case goes unnoticed when the suite of
    the case has no properties of its own: the validator returns nil and the
    report is written.  The same property is refused on the suite itself, and
    on the case as soon as the suite has a property list, even an empty
    one. *)
Theorem C1_case_property_goes_unchecked :
  checkPropertyValidity caseViolation = None /\
  (forall writeIndented w, exists node,
     marshalTestsuites caseViolation = Ok node /\
     printTestsuites writeIndented caseViolation w
     = (None,
        {| stdout := stdout w ++ Header ++ writeIndented " " "  " node ++ newline;
           marshalCalls := S (marshalCalls w) |})) /\
  checkPropertyValidity caseViolationChecked
  = Some "property p in testcase c should contain value or a text value, not both" /\
  checkPropertyValidity suiteViolation
  = Some "property p in testsuite s should contain value or a text value, not both".
Proof.
  assert (V : checkPropertyValidity caseViolation = None)
    by (vm_compute; reflexivity).
  assert (M : exists node, marshalTestsuites caseViolation = Ok node)
    by (vm_compute; eexists; reflexivity).
  split; [exact V|]. split; [|split; vm_compute; reflexivity].
  intros wr w. destruct M as [node M]. exists node. split; [exact M|].
  exact (@printTestsuites_encoded wr caseViolation node w V M).
Qed.

(** C6: when the validator reports an error, [getReport] returns that error
    with no data and [Print] returns it too; the world is the one before the
    call: the encoder was not run and nothing was written. *)
Theorem C6_fails_closed (writeIndented : string -> string -> Node -> string)
  (ts : Testsuites) (e : error) (w : World) :
  checkPropertyValidity ts = Some e ->
  getReport writeIndented ts w = ((EmptyString, Some e), w) /\
  printTestsuites writeIndented ts w = (Some e, w).
Proof.
  intros H. split.
  - now apply getReport_rejected.
  - unfold printTestsuites. now rewrite (@getReport_rejected writeIndented ts e w H).
Qed.


(** The empty input. *)
Example empty_input :
  buildTestsuites [] = Returns (newTestsuites 0 [newTestsuite [] 0]) /\
  marshalTestsuites (newTestsuites 0 [newTestsuite [] 0])
  = Ok (Element "testsuites" [("name", SString "config-file-validator")]
          [Element "testsuite" [("name", SString "config-file-validator")] []]).
Proof. split; vm_compute; reflexivity. Qed.

(** C9 (as amended): on success [Print] writes to standard output the XML
    declaration line, the encoded tree and, from [Println], a final newline,
    and nothing else; when [getReport] returns an error nothing is written. *)
Theorem C9_output_is_header_body_newline
  (writeIndented : string -> string -> Node -> string)
  (reports : list Report) (w : World) :
  inputContract reports ->
  (exists ts node,
     buildTestsuites reports = Returns ts /\
     marshalTestsuites ts = Ok node /\
     Print writeIndented reports w
     = (Returns None,
        {| stdout := stdout w ++ Header ++ writeIndented " " "  " node ++ newline;
           marshalCalls := S (marshalCalls w) |})) /\
  (forall ts e w', printTestsuites writeIndented ts w = (Some e, w') ->
                   stdout w' = stdout w) /\
  String.length Header = 39%nat /\
  String.get 38 Header = Some (Ascii.ascii_of_nat 10).
Proof.
  intros H. split; [now apply Print_succeeds|].
  split; [|split; reflexivity].
  intros ts e w'. apply printTestsuites_error.
Qed.

(** *** The statements that do not hold as written *)

(** C7, as stated, fails: the case built for the invalid record
    [invalidReport] has no [TestcaseError]; it has a [TestcaseFailure]. *)
Lemma C7_counterexample :
  IsValid invalidReport = false /\
  exists ts suite tc,
    buildTestsuites [invalidReport] = Returns ts /\
    Testsuites.Testsuites ts = [suite] /\
    Testsuite.Testcases suite = Some [tc] /\
    Testcase.TestcaseError tc = None /\
    Testcase.TestcaseFailure tc = Some (newTestcaseFailure "bad key").
Proof.
  split; [reflexivity|].
  exists (newTestsuites 1
            [newTestsuite
               [setTestcaseFailure (newTestcase "a.yaml")
                  (Some (newTestcaseFailure "bad key"))] 1]),
         (newTestsuite
            [setTestcaseFailure (newTestcase "a.yaml")
               (Some (newTestcaseFailure "bad key"))] 1),
         (setTestcaseFailure (newTestcase "a.yaml")
            (Some (newTestcaseFailure "bad key"))).
  repeat split; vm_compute; reflexivity.
Qed.

(** C8, as stated, fails: a property whose name is the empty string is
    written with its [name] attribute, and a skipped marker whose message is
    the empty string with its [message] attribute; neither is among the
    exceptions the statement lists. *)
Lemma C8_counterexample :
  (Property.Name unnamedProperty = "" /\
   exists attrs content,
     marshalProperty unnamedProperty = Ok (Element "property" attrs content) /\
     hasAttr "name" attrs = true) /\
  (Skipped.Message silentSkipped = "" /\
   exists attrs content,
     marshalSkipped silentSkipped = Ok (Element "skipped" attrs content) /\
     hasAttr "message" attrs = true).
Proof.
  split; (split; [reflexivity|]).
  - exists [("name", SString "")], [Text (SString "")].
    split; vm_compute; reflexivity.
  - exists [("message", SString "")], [].
    split; vm_compute; reflexivity.
Qed.

(** C9, as stated, fails: for the empty list of reports, whatever the
    printer, what reaches standard output is not the header followed by the
    encoded tree: [Println] has added a newline after them. *)
Lemma C9_counterexample :
  ~ (exists (writeIndented : string -> string -> Node -> string) ts node,
       buildTestsuites [] = Returns ts /\
       marshalTestsuites ts = Ok node /\
       stdout (snd (Print writeIndented [] emptyWorld))
       = Header ++ writeIndented " " "  " node).
Proof.
  intros (wr & ts & node & B & M & E).
  destruct (@Print_succeeds wr [] emptyWorld (Forall_nil _))
    as (ts' & node' & B' & M' & P).
  rewrite B in B'. inversion B'; subst ts'.
  rewrite M in M'. inversion M'; subst node'.
  rewrite P in E. cbn [snd stdout emptyWorld] in E.
  apply (f_equal String.length) in E.
  rewrite !append_length in E. cbn [String.length newline] in E. lia.
Qed.

(** *** The statements on the example of the specification *)

Lemma sampleReports_contract : inputContract sampleReports.
Proof.
  unfold inputContract, sampleReports.
  repeat constructor; simpl; intros; discriminate.
Defined.

Lemma sampleReports_fitsInt : fitsInt sampleReports.
Proof.
  vm_compute. discriminate.
Defined.

Lemma C10_witness :
  inputContract sampleReports /\
  (buildTestsuites sampleReports <> Panics /\
   forall writeIndented w, fst (Print writeIndented sampleReports w) <> Panics).
Proof.
  split; [exact sampleReports_contract|].
  exact (@C10_no_nil_dereference sampleReports sampleReports_contract).
Defined.

Lemma C2_witness :
  inputContract sampleReports /\ fitsInt sampleReports /\
  exists ts suite cases,
    buildTestsuites sampleReports = Returns ts /\
    Testsuites.Testsuites ts = [suite] /\
    Testsuite.Testcases suite = Some cases /\
    Testsuite.Errors suite = Z.of_nat (countInvalid sampleReports) /\
    forall i r, nth_error sampleReports i = Some r ->
      exists tc, nth_error cases i = Some tc /\
        (IsValid r = false ->
           exists e f, ValidationError r = Some e /\
                       Testcase.TestcaseFailure tc = Some f /\
                       TestcaseFailure.Message f = e) /\
        (IsValid r = true ->
           Testcase.TestcaseFailure tc = None /\
           Testcase.TestcaseError tc = None /\
           Testcase.Skipped tc = None).
Proof.
  split; [exact sampleReports_contract|].
  split; [exact sampleReports_fitsInt|].
  exact (@C2_failure_records sampleReports sampleReports_contract
           sampleReports_fitsInt).
Defined.



Lemma C7_witness :
  inputContract sampleReports /\
  exists ts suite cases,
    buildTestsuites sampleReports = Returns ts /\
    Testsuites.Testsuites ts = [suite] /\
    Testsuite.Testcases suite = Some cases /\
    forall i r, nth_error sampleReports i = Some r -> IsValid r = false ->
      exists tc, nth_error cases i = Some tc /\
        Testcase.TestcaseFailure tc <> None /\
        Testcase.TestcaseError tc = None.
Proof.
  split; [exact sampleReports_contract|].
  exact (@C7_invalid_results_become_failures sampleReports
           sampleReports_contract).
Defined.

Lemma suiteViolation_rejected :
  checkPropertyValidity suiteViolation
  = Some "property p in testsuite s should contain value or a text value, not both".
Proof.
  vm_compute. reflexivity.
Defined.

Lemma C6_witness :
  checkPropertyValidity suiteViolation
  = Some "property p in testsuite s should contain value or a text value, not both" /\
  (getReport rootNameOnly suiteViolation emptyWorld
   = ((EmptyString,
       Some "property p in testsuite s should contain value or a text value, not both"),
      emptyWorld) /\
   printTestsuites rootNameOnly suiteViolation emptyWorld
   = (Some "property p in testsuite s should contain value or a text value, not both",
      emptyWorld)).
Proof.
  split; [exact suiteViolation_rejected|].
  exact (@C6_fails_closed rootNameOnly suiteViolation _ emptyWorld
           suiteViolation_rejected).
Defined.

Lemma C8_witness :
  marshalProperty unnamedProperty
  = Ok (Element "property" [("name", SString "")] [Text (SString "")]) /\
  (hasAttr "name" [("name", SString "")] = true /\
   hasAttr "value" [("name", SString "")]
   = nonEmpty (Property.Value unnamedProperty)).
Proof.
  assert (E : marshalProperty unnamedProperty
              = Ok (Element "property" [("name", SString "")]
                      [Text (SString "")]))
    by (vm_compute; reflexivity).
  split; [exact E|].
  destruct C8_attribute_omission as (_ & _ & _ & Hp & _).
  exact (Hp unnamedProperty _ _ _ E).
Defined.

Lemma C9_witness :
  inputContract sampleReports /\
  (exists ts node,
     buildTestsuites sampleReports = Returns ts /\
     marshalTestsuites ts = Ok node /\
     Print rootNameOnly sampleReports emptyWorld
     = (Returns None,
        {| stdout := stdout emptyWorld ++ Header
                     ++ rootNameOnly " " "  " node ++ newline;
           marshalCalls := S (marshalCalls emptyWorld) |})) /\
  (forall ts e w', printTestsuites rootNameOnly ts emptyWorld = (Some e, w') ->
                   stdout w' = stdout emptyWorld) /\
  String.length Header = 39%nat /\
  String.get 38 Header = Some (Ascii.ascii_of_nat 10).
Proof.
  split; [exact sampleReports_contract|].
  exact (@C9_output_is_header_body_newline rootNameOnly sampleReports
           emptyWorld sampleReports_contract).
Defined.

(** What is written for the example of the specification, the printer
    being [rootNameOnly]. *)
Example sampleReports_output :
  Print rootNameOnly sampleReports emptyWorld
  = (Returns None,
     {| stdout := Header ++ "testsuites" ++ newline; marshalCalls := 1 |}).
Proof. vm_compute. reflexivity. Qed.

(* ================================================================== *)
(** ** Further properties of the reporter *)

(** *** The validator *)

Lemma firstViolation_app (l l' : list (Property * error)) :
  firstViolation (l ++ l')%list
  = match firstViolation l with
    | Some e => Some e
    | None => firstViolation l'
    end.
Proof.
  unfold firstViolation. induction l as [|c l IH]; simpl.
  - reflexivity.
  - destruct (violates (fst c)); simpl; auto.
Qed.

Lemma checkSuiteProperties_first (s : Testsuite) (props : list Property) :
  checkSuiteProperties s props
  = firstViolation (map (fun p => (p, suiteError s p)) props).
Proof.
  unfold firstViolation. induction props as [|p props IH]; simpl.
  - reflexivity.
  - unfold violates at 1. simpl.
    destruct (nonEmpty (Property.Value p) && nonEmpty (Property.TextValue p));
      simpl; auto.
Qed.

Lemma checkCaseProperties_first (tc : Testcase) (props : list Property) :
  checkCaseProperties tc props
  = firstViolation (map (fun p => (p, caseError tc p)) props).
Proof.
  unfold firstViolation. induction props as [|p props IH]; simpl.
  - reflexivity.
  - unfold violates at 1. simpl.
    destruct (nonEmpty (Property.Value p) && nonEmpty (Property.TextValue p));
      simpl; auto.
Qed.

Lemma checkTestcases_first (tcs : list Testcase) :
  checkTestcases tcs = firstViolation (flat_map caseFindings tcs).
Proof.
  induction tcs as [|tc tcs IH]; simpl.
  - reflexivity.
  - rewrite firstViolation_app. unfold caseFindings at 1.
    destruct (Testcase.Properties tc) as [props|].
    + rewrite checkCaseProperties_first.
      destruct (firstViolation (map (fun p => (p, caseError tc p)) props));
        [reflexivity | exact IH].
    + exact IH.
Qed.

Lemma checkSuites_first (suites : list Testsuite) :
  checkSuites suites = firstViolation (flat_map suiteFindings suites).
Proof.
  induction suites as [|s rest IH]; simpl.
  - reflexivity.
  - rewrite firstViolation_app. unfold suiteFindings at 1.
    destruct (Testsuite.Properties s) as [props|]; [|exact IH].
    rewrite firstViolation_app, checkSuiteProperties_first.
    destruct (firstViolation (map (fun p => (p, suiteError s p)) props));
      [reflexivity|].
    destruct (Testsuite.Testcases s) as [tcs|]; [|exact IH].
    rewrite checkTestcases_first.
    destruct (firstViolation (flat_map caseFindings tcs));
      [reflexivity | exact IH].
Qed.

(** X3: the validator returns the error of the first property with both
    values among the properties it looks at, in document order: for each
    suite that has a property list, the suite's own properties and then the
    properties of its cases. *)
Theorem X3_validator_reports_first_violation (ts : Testsuites) :
  checkPropertyValidity ts = firstViolation (examined ts).
Proof.
  unfold checkPropertyValidity, examined.
  apply checkSuites_first.
Qed.

Lemma firstViolation_None (l : list (Property * error)) :
  firstViolation l = None <-> forall c, In c l -> violates (fst c) = false.
Proof.
  unfold firstViolation. split.
  - intros H c I. destruct (find _ l) eqn:F; [discriminate|].
    exact (find_none _ _ F c I).
  - intros H. destruct (find _ l) as [c|] eqn:F; [|reflexivity].
    apply find_some in F. destruct F as [I V].
    rewrite (H c I) in V. discriminate.
Qed.

Lemma firstViolation_Some (l : list (Property * error)) (e : error) :
  firstViolation l = Some e ->
  exists p, In (p, e) l /\ violates p = true.
Proof.
  unfold firstViolation. destruct (find _ l) as [[p e']|] eqn:F; [|discriminate].
  simpl. intros E. inversion E; subst. apply find_some in F. simpl in F.
  exists p. tauto.
Qed.

Lemma examined_In (ts : Testsuites) (p : Property) (e : error) :
  In (p, e) (examined ts) <->
  exists s props,
    In s (Testsuites.Testsuites ts) /\
    Testsuite.Properties s = Some props /\
    ((In p props /\ e = suiteError s p) \/
     (exists tcs tc ps,
        Testsuite.Testcases s = Some tcs /\ In tc tcs /\
        Testcase.Properties tc = Some ps /\ In p ps /\ e = caseError tc p)).
Proof.
  unfold examined. rewrite in_flat_map. split.
  - intros (s & Is & I). unfold suiteFindings in I.
    destruct (Testsuite.Properties s) as [props|] eqn:P; [|destruct I].
    exists s, props. split; [exact Is|]. split; [exact P|].
    apply in_app_or in I. destruct I as [I|I].
    + left. apply in_map_iff in I. destruct I as (q & E & Iq).
      inversion E; subst. auto.
    + right. destruct (Testsuite.Testcases s) as [tcs|] eqn:T; [|destruct I].
      apply in_flat_map in I. destruct I as (tc & Itc & I).
      unfold caseFindings in I.
      destruct (Testcase.Properties tc) as [ps|] eqn:Q; [|destruct I].
      apply in_map_iff in I. destruct I as (q & E & Iq).
      inversion E; subst. exists tcs, tc, ps. auto.
  - intros (s & props & Is & P & H). exists s. split; [exact Is|].
    unfold suiteFindings. rewrite P. apply in_or_app.
    destruct H as [[I ->]|(tcs & tc & ps & T & Itc & Q & I & ->)].
    + left. apply in_map_iff. eauto.
    + right. rewrite T. apply in_flat_map. exists tc. split; [exact Itc|].
      unfold caseFindings. rewrite Q. apply in_map_iff. eauto.
Qed.

(** X1: the validator accepts a document exactly when, in every suite that
    has a property list of its own, no property of the suite and no property
    of its cases has both a value and a text value.  Suites without a
    property list are not looked at. *)
Theorem X1_validator_accepts_iff (ts : Testsuites) :
  checkPropertyValidity ts = None <->
  forall s props,
    In s (Testsuites.Testsuites ts) ->
    Testsuite.Properties s = Some props ->
    (forall p, In p props -> violates p = false) /\
    (forall tcs tc ps p,
       Testsuite.Testcases s = Some tcs -> In tc tcs ->
       Testcase.Properties tc = Some ps -> In p ps -> violates p = false).
Proof.
  unfold checkPropertyValidity. rewrite checkSuites_first.
  fold (examined ts). rewrite firstViolation_None. split.
  - intros H s props Is P. split.
    + intros p I. apply (H (p, suiteError s p)). apply examined_In.
      exists s, props. auto.
    + intros tcs tc ps p T Itc Q I. apply (H (p, caseError tc p)).
      apply examined_In. exists s, props. split; [exact Is|].
      split; [exact P|]. right. exists tcs, tc, ps. auto.
  - intros H [p e] I. simpl. apply examined_In in I.
    destruct I as (s & props & Is & P & [[I _]|(tcs & tc & ps & T & Itc & Q & I & _)]).
    + exact (proj1 (H s props Is P) p I).
    + exact (proj2 (H s props Is P) tcs tc ps p T Itc Q I).
Qed.

(** X2: an error of the validator always names a property of the document
    that has both a value and a text value, together with the suite or the
    case that carries it. *)
Theorem X2_validator_error_names_a_violation (ts : Testsuites) (e : error) :
  checkPropertyValidity ts = Some e ->
  exists s props p,
    In s (Testsuites.Testsuites ts) /\
    Testsuite.Properties s = Some props /\
    violates p = true /\
    ((In p props /\ e = suiteError s p) \/
     (exists tcs tc ps,
        Testsuite.Testcases s = Some tcs /\ In tc tcs /\
        Testcase.Properties tc = Some ps /\ In p ps /\ e = caseError tc p)).
Proof.
  unfold checkPropertyValidity. rewrite checkSuites_first.
  fold (examined ts). intros H.
  apply firstViolation_Some in H. destruct H as (p & I & V).
  apply examined_In in I. destruct I as (s & props & Is & P & H).
  exists s, props, p. auto.
Qed.

Lemma X2_witness :
  checkPropertyValidity suiteViolation
  = Some "property p in testsuite s should contain value or a text value, not both" /\
  exists s props p,
    In s (Testsuites.Testsuites suiteViolation) /\
    Testsuite.Properties s = Some props /\
    violates p = true /\
    ((In p props /\
      "property p in testsuite s should contain value or a text value, not both"
      = suiteError s p) \/
     (exists tcs tc ps,
        Testsuite.Testcases s = Some tcs /\ In tc tcs /\
        Testcase.Properties tc = Some ps /\ In p ps /\
        "property p in testsuite s should contain value or a text value, not both"
        = caseError tc p)).
Proof.
  split; [exact suiteViolation_rejected|].
  exact (@X2_validator_error_names_a_violation suiteViolation _
           suiteViolation_rejected).
Defined.

(** X12: a document none of whose suites has a property list of its own is
    accepted whatever the properties of its cases. *)
Theorem X12_suites_without_properties_are_not_checked (ts : Testsuites) :
  (forall s, In s (Testsuites.Testsuites ts) -> Testsuite.Properties s = None) ->
  checkPropertyValidity ts = None.
Proof.
  unfold checkPropertyValidity.
  induction (Testsuites.Testsuites ts) as [|s rest IH]; intros H.
  - reflexivity.
  - cbn [checkSuites]. rewrite (H s (or_introl eq_refl)).
    apply IH. intros s' I. apply H. now right.
Qed.

Lemma X12_witness :
  (forall s, In s (Testsuites.Testsuites caseViolation) ->
             Testsuite.Properties s = None) /\
  checkPropertyValidity caseViolation = None.
Proof.
  assert (H : forall s, In s (Testsuites.Testsuites caseViolation) ->
                        Testsuite.Properties s = None).
  { intros s [<-|[]]. reflexivity. }
  split; [exact H|].
  exact (@X12_suites_without_properties_are_not_checked caseViolation H).
Defined.

(** *** The outcome of Print *)

Lemma printLoop_returns_contract (reports : list Report) :
  forall acc n x, printLoop reports acc n = Returns x -> inputContract reports.
Proof.
  unfold inputContract.
  induction reports as [|r rest IH]; intros acc n x E.
  - constructor.
  - cbn [printLoop] in E. destruct (IsValid r) eqn:V; cbn [negb] in E.
    + constructor; [simpl; intros; congruence | eapply IH; eauto].
    + destruct (ValidationError r) eqn:VE; [|discriminate].
      constructor; [simpl; intros _; congruence | eapply IH; eauto].
Qed.

Lemma buildTestsuites_returns_contract (reports : list Report) (ts : Testsuites) :
  buildTestsuites reports = Returns ts -> inputContract reports.
Proof.
  unfold buildTestsuites.
  destruct (printLoop reports [] 0) as [x|] eqn:L; [|discriminate].
  intros _. eapply printLoop_returns_contract; eauto.
Qed.

Lemma offending_breaks_contract (reports : list Report) (r : Report) :
  In r reports -> offending r -> ~ inputContract reports.
Proof.
  intros I [V E] H. unfold inputContract in H.
  rewrite Forall_forall in H. exact (H r I V E).
Qed.

(** X4: whatever the input, [Print] either returns nil or panics; it never
    returns an error.  It panics exactly when some record is invalid and has
    no error value, and then nothing has been written and the encoder has not
    run. *)
Theorem X4_print_returns_nil_or_panics
  (writeIndented : string -> string -> Node -> string)
  (reports : list Report) (w : World) :
  (fst (Print writeIndented reports w) = Panics <->
   exists r, In r reports /\ offending r) /\
  (fst (Print writeIndented reports w) = Panics ->
   snd (Print writeIndented reports w) = w) /\
  (fst (Print writeIndented reports w) <> Panics ->
   fst (Print writeIndented reports w) = Returns None).
Proof.
  destruct (buildTestsuites reports) as [ts|] eqn:B.
  - pose proof (@buildTestsuites_returns_contract reports ts B) as H.
    destruct (@Print_succeeds writeIndented reports w H)
      as (ts' & node & _ & _ & P).
    rewrite P. cbn [fst snd]. repeat split; try discriminate; auto.
    intros (r & I & O). exfalso. exact (@offending_breaks_contract reports r I O H).
  - unfold Print. rewrite B. cbn [fst snd]. repeat split; auto.
    + intros _. destruct (@buildTestsuites_panics reports B) as (r & I & O).
      exists r. split; [exact I | exact O].
    + intros H. now destruct H.
Qed.

(** *** Path normalization *)

Lemma Contains_single_none (a : ascii) (s : string) :
  (forall n c, String.get n s = Some c -> Ascii.eqb c a = false) ->
  Strings.Contains s (String a EmptyString) = false.
Proof.
  induction s as [|c s IH]; intros H.
  - reflexivity.
  - cbn [Strings.Contains]. rewrite HasPrefix_single.
    rewrite Ascii.eqb_sym, (H 0%nat c eq_refl). simpl.
    apply IH. intros n c' G. exact (H (S n) c' G).
Qed.

Lemma replaceScan_single_length (a b : ascii) (s : string) :
  String.length
    (Strings.replaceScan 0 s (String a EmptyString) (String b EmptyString))
  = String.length s.
Proof.
  induction s as [|c s IH].
  - reflexivity.
  - cbn [Strings.replaceScan]. rewrite HasPrefix_single.
    destruct (Ascii.eqb a c); cbn [String.length Nat.pred];
      simpl; now rewrite IH.
Qed.

Lemma normalizePath_no_backslash (filePath : string) :
  Strings.Contains (normalizePath filePath) "\" = false.
Proof.
  apply Contains_single_none. intros n c G.
  rewrite normalizePath_get in G.
  destruct (String.get n filePath) as [c0|]; [|discriminate].
  simpl in G. inversion G; subst c. unfold toSlash, Strings.backslash.
  destruct (Ascii.eqb c0 "\"%char) eqn:E; [reflexivity | exact E].
Qed.

(** X5: a normalized path contains no backslash and is as long as the path
    it comes from. *)
Theorem X5_normalized_path_has_no_backslash (filePath : string) :
  Strings.Contains (normalizePath filePath) "\" = false /\
  String.length (normalizePath filePath) = String.length filePath.
Proof.
  split; [apply normalizePath_no_backslash|].
  unfold normalizePath.
  destruct (Strings.Contains filePath "\"); [|reflexivity].
  apply replaceScan_single_length.
Qed.

(** X6: normalizing is idempotent, and the [strings.Contains] test of line
    149 changes nothing: the result is that of [strings.ReplaceAll] alone. *)
Theorem X6_normalizePath_idempotent (filePath : string) :
  normalizePath (normalizePath filePath) = normalizePath filePath /\
  normalizePath filePath = Strings.ReplaceAll filePath "\" "/".
Proof.
  split.
  - unfold normalizePath at 1.
    now rewrite (normalizePath_no_backslash filePath).
  - unfold normalizePath.
    destruct (Strings.Contains filePath "\") eqn:E; [reflexivity|].
    unfold Strings.ReplaceAll.
    induction filePath as [|c s IH].
    + reflexivity.
    + cbn [Strings.replaceScan]. rewrite HasPrefix_single.
      cbn [Strings.Contains] in E. rewrite HasPrefix_single in E.
      apply orb_false_iff in E. destruct E as [E1 E2].
      rewrite E1. f_equal. apply IH. exact E2.
Qed.

(** *** The encoder, field by field *)

Lemma marshalAttrs_attr (f : Field) (rest : list Field) (finfo : fieldInfo)
  (here : list (string * Scalar)) :
  structFieldInfo f = Ok finfo ->
  mode finfo = fAttr ->
  marshalAttr (name finfo) (value f) = Ok here ->
  marshalAttrs (f :: rest)
  = andThen (if omitEmpty finfo && isEmptyValue (value f) then [] else here)
      (marshalAttrs rest).
Proof.
  intros H M A. cbn [marshalAttrs]. rewrite H, M, A.
  destruct (omitEmpty finfo && isEmptyValue (value f));
    destruct (marshalAttrs rest); reflexivity.
Qed.

Lemma marshalAttrs_fails (f : Field) (rest : list Field) (finfo : fieldInfo)
  (e : error) :
  structFieldInfo f = Ok finfo ->
  mode finfo = fAttr ->
  omitEmpty finfo && isEmptyValue (value f) = false ->
  marshalAttr (name finfo) (value f) = Err e ->
  marshalAttrs (f :: rest) = Err e.
Proof.
  intros H M O A. cbn [marshalAttrs]. now rewrite H, M, O, A.
Qed.

Lemma marshalAttrs_other (f : Field) (rest : list Field) (finfo : fieldInfo) :
  structFieldInfo f = Ok finfo ->
  mode finfo <> fAttr ->
  marshalAttrs (f :: rest) = marshalAttrs rest.
Proof.
  intros H M. cbn [marshalAttrs]. rewrite H.
  destruct (mode finfo); congruence.
Qed.

Lemma marshalContent_attr (f : Field) (rest : list Field) (finfo : fieldInfo) :
  structFieldInfo f = Ok finfo ->
  mode finfo = fAttr ->
  marshalContent (f :: rest) = marshalContent rest.
Proof.
  intros H M. cbn [marshalContent]. now rewrite H, M.
Qed.

Lemma marshalContent_chardata (f : Field) (rest : list Field)
  (finfo : fieldInfo) :
  structFieldInfo f = Ok finfo ->
  mode finfo = fCharData ->
  marshalContent (f :: rest)
  = andThen (marshalCharData (value f)) (marshalContent rest).
Proof.
  intros H M. cbn [marshalContent]. rewrite H, M.
  destruct (marshalContent rest); reflexivity.
Qed.

Lemma marshalContent_element (f : Field) (rest : list Field)
  (finfo : fieldInfo) (nodes : list Node) :
  structFieldInfo f = Ok finfo ->
  mode finfo = fElement ->
  (if omitEmpty finfo && isEmptyValue (value f) then Ok []
   else marshalElement (name finfo) (value f)) = Ok nodes ->
  marshalContent (f :: rest)
  = andThen (if isNilPointer (value f) then nodes
             else wrapParents (parents finfo) nodes)
      (marshalContent rest).
Proof.
  intros H M E. cbn [marshalContent]. rewrite H, M, E.
  destruct (marshalContent rest); reflexivity.
Qed.

Lemma marshalContent_element_fails (f : Field) (rest : list Field)
  (finfo : fieldInfo) (e : error) :
  structFieldInfo f = Ok finfo ->
  mode finfo = fElement ->
  (if omitEmpty finfo && isEmptyValue (value f) then Ok []
   else marshalElement (name finfo) (value f)) = Err e ->
  marshalContent (f :: rest) = Err e.
Proof.
  intros H M E. cbn [marshalContent]. now rewrite H, M, E.
Qed.

Lemma collect_nodes {A : Type} (enc : A -> result Node) (node : A -> Node)
  (l : list A) :
  (forall a, enc a = Ok (node a)) ->
  collect (map enc l) = Ok (map node l).
Proof.
  intros H. induction l as [|a l IH]; simpl.
  - reflexivity.
  - now rewrite H, IH.
Qed.

Lemma marshalContent_pointer {A : Type} (enc : A -> result Node)
  (node : A -> Node) (goName tg : string) (p : option A) (rest : list Field)
  (finfo : fieldInfo) :
  structFieldInfo (field goName tg (VStructPtr (option_map enc p))) = Ok finfo ->
  mode finfo = fElement ->
  omitEmpty finfo = true ->
  parents finfo = [] ->
  (forall a, enc a = Ok (node a)) ->
  marshalContent (field goName tg (VStructPtr (option_map enc p)) :: rest)
  = andThen (pointee node p) (marshalContent rest).
Proof.
  intros H M O P E.
  rewrite (@marshalContent_element _ rest finfo (pointee node p) H M).
  - rewrite P. cbn [wrapParents]. now destruct (isNilPointer _).
  - rewrite O. destruct p as [a|]; simpl; [now rewrite E | reflexivity].
Qed.

Lemma marshalContent_properties (goName tg : string)
  (p : option (list Property)) (rest : list Field) (finfo : fieldInfo)
  (enc : Property -> result Node) :
  structFieldInfo (field goName tg (VStructsPtr (option_map (map enc) p)))
  = Ok finfo ->
  mode finfo = fElement ->
  omitEmpty finfo = true ->
  parents finfo = ["properties"] ->
  (forall a, enc a = Ok (propertyNode a)) ->
  marshalContent (field goName tg (VStructsPtr (option_map (map enc) p)) :: rest)
  = andThen (propertiesNodes p) (marshalContent rest).
Proof.
  intros H M O P E.
  rewrite (@marshalContent_element _ rest finfo
             (match p with None => [] | Some l => map propertyNode l end) H M).
  - rewrite P. destruct p; reflexivity.
  - rewrite O. destruct p as [l|]; simpl; [|reflexivity].
    now apply collect_nodes.
Qed.

(** *** The elements of the report tree *)

Lemma marshalProperty_node (p : Property) :
  marshalProperty p = Ok (propertyNode p).
Proof.
  unfold marshalProperty, marshalStruct, propertyFields, propertyNode,
    unlessEmpty.
  cbn. destruct (Property.Value p =? "")%string; reflexivity.
Qed.

Lemma marshalSkipped_node (k : Skipped) :
  marshalSkipped k = Ok (skippedNode k).
Proof. reflexivity. Qed.

Lemma marshalTestcaseError_node (e : TestcaseError) :
  marshalTestcaseError e = Ok (errorNode e).
Proof.
  rewrite marshalTestcaseError_shape. reflexivity.
Qed.

Lemma marshalTestcaseFailure_node (f : TestcaseFailure) :
  marshalTestcaseFailure f = Ok (failureNode f).
Proof.
  unfold marshalTestcaseFailure, marshalStruct, testcaseFailureFields,
    failureNode, textChild, nonEmpty.
  cbn.
  destruct (TestcaseFailure.Message f =? "")%string;
    destruct (TestcaseFailure.Type_ f =? "")%string; reflexivity.
Qed.

Lemma marshalSystemOut_node (o : SystemOut) :
  marshalSystemOut o = Ok (systemOutNode o).
Proof. reflexivity. Qed.

Lemma marshalSystemErr_node (e : SystemErr) :
  marshalSystemErr e = Ok (systemErrNode e).
Proof. reflexivity. Qed.

(** One field of the first pass: an attribute that cannot fail. *)
Ltac attr_field :=
  lazymatch goal with
  | |- context [marshalAttrs (?f :: ?rest)] =>
      let r := eval vm_compute in (structFieldInfo f) in
      lazymatch r with
      | Ok ?finfo =>
          let H := fresh "H" in
          assert (H : structFieldInfo f = Ok finfo)
            by (vm_compute; reflexivity);
          erewrite (@marshalAttrs_attr f rest finfo _ H eq_refl)
            by reflexivity;
          clear H
      end
  end.

(** One field of the first pass that is no attribute. *)
Ltac other_field :=
  lazymatch goal with
  | |- context [marshalAttrs (?f :: ?rest)] =>
      let r := eval vm_compute in (structFieldInfo f) in
      lazymatch r with
      | Ok ?finfo =>
          let H := fresh "H" in
          assert (H : structFieldInfo f = Ok finfo)
            by (vm_compute; reflexivity);
          rewrite (@marshalAttrs_other f rest finfo H) by discriminate;
          clear H
      end
  end.

Lemma testcase_attrs (tc : Testcase) :
  marshalAttrs (testcaseFields tc)
  = Ok ([("name", SString (Testcase.Name tc));
         ("classname", SString (Testcase.ClassName tc))]
        ++ unlessEmpty (Testcase.Assertions tc =? 0) "assertions"
             (SInt (Testcase.Assertions tc))
        ++ unlessEmpty (floatIsZero (Testcase.Time tc)) "time"
             (SFloat32 (Testcase.Time tc))
        ++ unlessEmpty (String.eqb (Testcase.File tc) "") "file"
             (SString (Testcase.File tc))
        ++ unlessEmpty (Testcase.Line tc =? 0) "line"
             (SInt (Testcase.Line tc)))%list.
Proof.
  unfold testcaseFields.
  do 6 attr_field. do 4 other_field.
  cbn [omitEmpty name value field isEmptyValue andb marshalAttrs andThen].
  unfold unlessEmpty. rewrite !app_nil_r. reflexivity.
Qed.

(** One field of the second pass that is an attribute. *)
Ltac skip_attr :=
  lazymatch goal with
  | |- context [marshalContent (?f :: ?rest)] =>
      let r := eval vm_compute in (structFieldInfo f) in
      lazymatch r with
      | Ok ?finfo =>
          let H := fresh "H" in
          assert (H : structFieldInfo f = Ok finfo)
            by (vm_compute; reflexivity);
          rewrite (@marshalContent_attr f rest finfo H eq_refl);
          clear H
      end
  end.

(** One field of the second pass that is a pointer to a struct. *)
Ltac pointer_field lem :=
  lazymatch goal with
  | |- context [marshalContent (field ?g ?t (VStructPtr (option_map ?enc ?p)) :: ?rest)] =>
      let r := eval vm_compute in
        (structFieldInfo (field g t (VStructPtr (option_map enc p)))) in
      lazymatch r with
      | Ok ?finfo =>
          let H := fresh "H" in
          assert (H : structFieldInfo (field g t (VStructPtr (option_map enc p)))
                      = Ok finfo)
            by (vm_compute; reflexivity);
          rewrite (@marshalContent_pointer _ enc _ g t p rest finfo H
                     eq_refl eq_refl eq_refl lem);
          clear H
      end
  end.

(** One field of the second pass that holds properties. *)
Ltac properties_field :=
  lazymatch goal with
  | |- context [marshalContent (field ?g ?t (VStructsPtr (option_map (map ?enc) ?p)) :: ?rest)] =>
      let r := eval vm_compute in
        (structFieldInfo (field g t (VStructsPtr (option_map (map enc) p)))) in
      lazymatch r with
      | Ok ?finfo =>
          let H := fresh "H" in
          assert (H : structFieldInfo
                        (field g t (VStructsPtr (option_map (map enc) p)))
                      = Ok finfo)
            by (vm_compute; reflexivity);
          rewrite (@marshalContent_properties g t p rest finfo enc H
                     eq_refl eq_refl eq_refl marshalProperty_node);
          clear H
      end
  end.

Lemma testcase_content (tc : Testcase) :
  marshalContent (testcaseFields tc)
  = Ok (pointee skippedNode (Testcase.Skipped tc)
        ++ propertiesNodes (Testcase.Properties tc)
        ++ pointee errorNode (Testcase.TestcaseError tc)
        ++ pointee failureNode (Testcase.TestcaseFailure tc))%list.
Proof.
  unfold testcaseFields.
  do 6 skip_attr.
  pointer_field marshalSkipped_node.
  properties_field.
  pointer_field marshalTestcaseError_node.
  pointer_field marshalTestcaseFailure_node.
  cbn [marshalContent andThen]. rewrite !app_nil_r. reflexivity.
Qed.

Lemma marshalTestcase_node (tc : Testcase) :
  marshalTestcase tc = Ok (testcaseNode tc).
Proof.
  rewrite marshalTestcase_unfold. unfold marshalStruct.
  rewrite testcase_attrs, testcase_content. reflexivity.
Qed.

(** X7: a case always encodes, to the element [testcase] with its
    attributes in field order ([name] and [classname] always, the others
    unless empty) and, as children in this order, the skipped marker, the
    properties inside one [properties] element, the error and the failure,
    each only when its pointer is not nil. *)
Theorem X7_testcase_element (tc : Testcase) :
  marshalTestcase tc = Ok (testcaseNode tc).
Proof.
  rewrite marshalTestcase_unfold. unfold marshalStruct.
  rewrite testcase_attrs, testcase_content. reflexivity.
Qed.

Lemma marshalAttrs_timestamp (goName tg : string) (t : option time_Time)
  (rest : list Field) (finfo : fieldInfo) :
  structFieldInfo (field goName tg (VTimePtr t)) = Ok finfo ->
  mode finfo = fAttr ->
  omitEmpty finfo = true ->
  name finfo = "timestamp" ->
  marshalAttrs (field goName tg (VTimePtr t) :: rest)
  = match timestampAttr t with
    | Err e => Err e
    | Ok stamp => andThen stamp (marshalAttrs rest)
    end.
Proof.
  intros H M O N. destruct t as [t|]; cbn [timestampAttr].
  - destruct (MarshalText t) as [text|e] eqn:T.
    + rewrite (@marshalAttrs_attr _ rest finfo [("timestamp", SString text)] H M).
      * rewrite O. reflexivity.
      * rewrite N. simpl. now rewrite T.
    + apply (@marshalAttrs_fails _ rest finfo e H M).
      * rewrite O. reflexivity.
      * simpl. now rewrite T.
  - rewrite (@marshalAttrs_attr _ rest finfo [] H M eq_refl).
    rewrite O. reflexivity.
Qed.

Lemma marshalContent_cases (goName tg : string) (p : option (list Testcase))
  (rest : list Field) (finfo : fieldInfo) :
  structFieldInfo
    (field goName tg (VStructsPtr (option_map (map marshalTestcase) p)))
  = Ok finfo ->
  mode finfo = fElement ->
  omitEmpty finfo = true ->
  parents finfo = [] ->
  marshalContent
    (field goName tg (VStructsPtr (option_map (map marshalTestcase) p)) :: rest)
  = andThen (casesNodes p) (marshalContent rest).
Proof.
  intros H M O P.
  rewrite (@marshalContent_element _ rest finfo (casesNodes p) H M).
  - rewrite P. cbn [wrapParents]. now destruct (isNilPointer _).
  - rewrite O. destruct p as [l|]; simpl; [|reflexivity].
    apply collect_nodes. exact marshalTestcase_node.
Qed.

Lemma marshalContent_structs (goName tg : string) (items : list (result Node))
  (rest : list Field) (finfo : fieldInfo) :
  structFieldInfo (field goName tg (VStructs items)) = Ok finfo ->
  mode finfo = fElement ->
  omitEmpty finfo = false ->
  parents finfo = [] ->
  marshalContent (field goName tg (VStructs items) :: rest)
  = match collect items with
    | Err e => Err e
    | Ok nodes => andThen nodes (marshalContent rest)
    end.
Proof.
  intros H M O P. destruct (collect items) as [nodes|e] eqn:C.
  - rewrite (@marshalContent_element _ rest finfo nodes H M).
    + rewrite P. reflexivity.
    + rewrite O. exact C.
  - apply (@marshalContent_element_fails _ rest finfo e H M).
    rewrite O. exact C.
Qed.

(** The timestamp field of the first pass. *)
Ltac timestamp_field :=
  lazymatch goal with
  | |- context [marshalAttrs (field ?g ?t (VTimePtr ?p) :: ?rest)] =>
      let r := eval vm_compute in (structFieldInfo (field g t (VTimePtr p))) in
      lazymatch r with
      | Ok ?finfo =>
          let H := fresh "H" in
          assert (H : structFieldInfo (field g t (VTimePtr p)) = Ok finfo)
            by (vm_compute; reflexivity);
          rewrite (@marshalAttrs_timestamp g t p rest finfo H
                     eq_refl eq_refl eq_refl);
          clear H
      end
  end.

(** The field of the second pass that holds the cases. *)
Ltac cases_field :=
  lazymatch goal with
  | |- context [marshalContent (field ?g ?t (VStructsPtr (option_map (map marshalTestcase) ?p)) :: ?rest)] =>
      let r := eval vm_compute in
        (structFieldInfo
           (field g t (VStructsPtr (option_map (map marshalTestcase) p)))) in
      lazymatch r with
      | Ok ?finfo =>
          let H := fresh "H" in
          assert (H : structFieldInfo
                        (field g t
                           (VStructsPtr (option_map (map marshalTestcase) p)))
                      = Ok finfo)
            by (vm_compute; reflexivity);
          rewrite (@marshalContent_cases g t p rest finfo H
                     eq_refl eq_refl eq_refl);
          clear H
      end
  end.

(** The field of the second pass that holds the suites. *)
Ltac structs_field :=
  lazymatch goal with
  | |- context [marshalContent (field ?g ?t (VStructs ?items) :: ?rest)] =>
      let r := eval vm_compute in
        (structFieldInfo (field g t (VStructs items))) in
      lazymatch r with
      | Ok ?finfo =>
          let H := fresh "H" in
          assert (H : structFieldInfo (field g t (VStructs items)) = Ok finfo)
            by (vm_compute; reflexivity);
          rewrite (@marshalContent_structs g t items rest finfo H
                     eq_refl eq_refl eq_refl);
          clear H
      end
  end.

Lemma testsuite_attrs (s : Testsuite) :
  marshalAttrs (testsuiteFields s)
  = match timestampAttr (Testsuite.Timestamp s) with
    | Err e => Err e
    | Ok stamp =>
        Ok ([("name", SString (Testsuite.Name s))]
            ++ unlessEmpty (Testsuite.Tests s =? 0) "tests"
                 (SInt (Testsuite.Tests s))
            ++ unlessEmpty (Testsuite.Failures s =? 0) "failures"
                 (SInt (Testsuite.Failures s))
            ++ unlessEmpty (Testsuite.Errors s =? 0) "errors"
                 (SInt (Testsuite.Errors s))
            ++ unlessEmpty (Testsuite.Skipped s =? 0) "skipped"
                 (SInt (Testsuite.Skipped s))
            ++ unlessEmpty (Testsuite.Assertions s =? 0) "assertions"
                 (SInt (Testsuite.Assertions s))
            ++ unlessEmpty (floatIsZero (Testsuite.Time s)) "time"
                 (SFloat32 (Testsuite.Time s))
            ++ stamp
            ++ unlessEmpty (String.eqb (Testsuite.File s) "") "file"
                 (SString (Testsuite.File s)))%list
    end.
Proof.
  unfold testsuiteFields.
  do 7 attr_field. timestamp_field. attr_field. do 4 other_field.
  cbn [omitEmpty name value field isEmptyValue andb marshalAttrs].
  destruct (timestampAttr (Testsuite.Timestamp s)) as [stamp|e];
    cbn [andThen]; [|reflexivity].
  unfold unlessEmpty. rewrite !app_nil_r. reflexivity.
Qed.

Lemma testsuite_content (s : Testsuite) :
  marshalContent (testsuiteFields s)
  = Ok (casesNodes (Testsuite.Testcases s)
        ++ propertiesNodes (Testsuite.Properties s)
        ++ pointee systemOutNode (Testsuite.SystemOut s)
        ++ pointee systemErrNode (Testsuite.SystemErr s))%list.
Proof.
  unfold testsuiteFields.
  do 9 skip_attr.
  cases_field. properties_field.
  pointer_field marshalSystemOut_node.
  pointer_field marshalSystemErr_node.
  cbn [marshalContent andThen]. rewrite !app_nil_r. reflexivity.
Qed.

Lemma marshalTestsuite_node (s : Testsuite) :
  marshalTestsuite s
  = match timestampAttr (Testsuite.Timestamp s) with
    | Err e => Err e
    | Ok stamp => Ok (testsuiteNode s stamp)
    end.
Proof.
  rewrite marshalTestsuite_unfold. unfold marshalStruct.
  rewrite testsuite_attrs, testsuite_content.
  destruct (timestampAttr (Testsuite.Timestamp s)); reflexivity.
Qed.

(** X8: a suite encodes to the element [testsuite]: [name] always, the
    counters, the time and the file unless zero or empty, the timestamp when
    its pointer is not nil; then its cases, its properties inside one
    [properties] element, [system-out] and [system-err].  The only failure
    is that of formatting the timestamp, whose error is returned. *)
Theorem X8_testsuite_element (s : Testsuite) :
  marshalTestsuite s
  = match timestampAttr (Testsuite.Timestamp s) with
    | Err e => Err e
    | Ok stamp => Ok (testsuiteNode s stamp)
    end.
Proof.
  rewrite marshalTestsuite_unfold. unfold marshalStruct.
  rewrite testsuite_attrs, testsuite_content.
  destruct (timestampAttr (Testsuite.Timestamp s)); reflexivity.
Qed.

Lemma testsuites_attrs (ts : Testsuites) :
  marshalAttrs (testsuitesFields ts)
  = match timestampAttr (Testsuites.Timestamp ts) with
    | Err e => Err e
    | Ok stamp =>
        Ok (unlessEmpty (String.eqb (Testsuites.Name ts) "") "name"
              (SString (Testsuites.Name ts))
            ++ unlessEmpty (Testsuites.Tests ts =? 0) "tests"
                 (SInt (Testsuites.Tests ts))
            ++ unlessEmpty (Testsuites.Failures ts =? 0) "failures"
                 (SInt (Testsuites.Failures ts))
            ++ unlessEmpty (Testsuites.Errors ts =? 0) "errors"
                 (SInt (Testsuites.Errors ts))
            ++ unlessEmpty (Testsuites.Skipped ts =? 0) "skipped"
                 (SInt (Testsuites.Skipped ts))
            ++ unlessEmpty (Testsuites.Assertions ts =? 0) "assertions"
                 (SInt (Testsuites.Assertions ts))
            ++ unlessEmpty (floatIsZero (Testsuites.Time ts)) "time"
                 (SFloat32 (Testsuites.Time ts))
            ++ stamp)%list
    end.
Proof.
  unfold testsuitesFields.
  do 7 attr_field. timestamp_field. other_field.
  cbn [omitEmpty name value field isEmptyValue andb marshalAttrs].
  destruct (timestampAttr (Testsuites.Timestamp ts)) as [stamp|e];
    cbn [andThen]; [|reflexivity].
  unfold unlessEmpty. rewrite !app_nil_r. reflexivity.
Qed.

Lemma testsuites_content (ts : Testsuites) :
  marshalContent (testsuitesFields ts)
  = collect (map marshalTestsuite (Testsuites.Testsuites ts)).
Proof.
  unfold testsuitesFields.
  do 8 skip_attr. structs_field.
  destruct (collect (map marshalTestsuite (Testsuites.Testsuites ts)));
    [|reflexivity].
  cbn [marshalContent andThen]. now rewrite app_nil_r.
Qed.

Lemma marshalTestsuites_node (ts : Testsuites) :
  marshalTestsuites ts
  = match timestampAttr (Testsuites.Timestamp ts) with
    | Err e => Err e
    | Ok stamp =>
        match collect (map marshalTestsuite (Testsuites.Testsuites ts)) with
        | Err e => Err e
        | Ok suites => Ok (testsuitesNode ts stamp suites)
        end
    end.
Proof.
  rewrite marshalTestsuites_unfold. unfold marshalStruct.
  rewrite testsuites_attrs, testsuites_content.
  destruct (timestampAttr (Testsuites.Timestamp ts)); reflexivity.
Qed.

(** X9: the document encodes to the element [testsuites], every attribute
    left out when zero or empty, with the elements of its suites as
    children, in order.  It fails only on a timestamp that cannot be
    formatted: that of the document first, else that of the first such
    suite. *)
Theorem X9_document_element (ts : Testsuites) :
  marshalTestsuites ts
  = match timestampAttr (Testsuites.Timestamp ts) with
    | Err e => Err e
    | Ok stamp =>
        match collect (map marshalTestsuite (Testsuites.Testsuites ts)) with
        | Err e => Err e
        | Ok suites => Ok (testsuitesNode ts stamp suites)
        end
    end.
Proof.
  rewrite marshalTestsuites_unfold. unfold marshalStruct.
  rewrite testsuites_attrs, testsuites_content.
  destruct (timestampAttr (Testsuites.Timestamp ts)); reflexivity.
Qed.

Lemma timestampAttr_ok (t : option time_Time) :
  (exists stamp, timestampAttr t = Ok stamp) <-> stampOk t.
Proof.
  unfold stampOk, timestampAttr. destruct t as [t|].
  - destruct (MarshalText t) as [text|e] eqn:T; split.
    + intros _ t' E. inversion E; subst t'. eauto.
    + eauto.
    + intros [stamp H]. discriminate.
    + intros H. destruct (H t eq_refl) as [text H']. congruence.
  - split; [intros _ t' E; discriminate | eauto].
Qed.

Lemma collect_ok (items : list (result Node)) :
  (exists nodes, collect items = Ok nodes) <->
  forall r, In r items -> exists n, r = Ok n.
Proof.
  induction items as [|r items IH]; simpl.
  - split; [intros _ r [] | eauto].
  - destruct r as [n|e].
    + destruct (collect items) as [ns|e'].
      * split; [|eauto]. intros _ r [<-|I]; [eauto|].
        apply (proj1 IH); eauto.
      * split.
        -- intros [nodes H]. discriminate.
        -- intros H. destruct (proj2 IH) as [ns H']; [auto | discriminate].
    + split.
      * intros [nodes H]. discriminate.
      * intros H. destruct (H (Err e) (or_introl eq_refl)) as [n H'].
        discriminate.
Qed.

Lemma marshalTestsuite_ok (s : Testsuite) :
  (exists n, marshalTestsuite s = Ok n) <-> stampOk (Testsuite.Timestamp s).
Proof.
  rewrite marshalTestsuite_node, <- timestampAttr_ok.
  destruct (timestampAttr (Testsuite.Timestamp s)) as [stamp|e]; split;
    eauto; intros [x H]; discriminate.
Qed.

Lemma marshalTestsuites_ok (ts : Testsuites) :
  (exists node, marshalTestsuites ts = Ok node) <->
  stampOk (Testsuites.Timestamp ts) /\
  forall s, In s (Testsuites.Testsuites ts) -> stampOk (Testsuite.Timestamp s).
Proof.
  rewrite marshalTestsuites_node, <- timestampAttr_ok.
  assert (C : (exists nodes,
                  collect (map marshalTestsuite (Testsuites.Testsuites ts))
                  = Ok nodes) <->
              forall s, In s (Testsuites.Testsuites ts) ->
                        stampOk (Testsuite.Timestamp s)).
  { rewrite collect_ok. split.
    - intros H s I. apply marshalTestsuite_ok. apply H.
      apply in_map. exact I.
    - intros H r I. apply in_map_iff in I. destruct I as (s & <- & I).
      apply marshalTestsuite_ok. auto. }
  destruct (timestampAttr (Testsuites.Timestamp ts)) as [stamp|e].
  - destruct (collect (map marshalTestsuite (Testsuites.Testsuites ts)))
      as [nodes|e].
    + split; [|eauto]. intros _. split; [eauto|]. apply C. eauto.
    + split.
      * intros [node H]. discriminate.
      * intros [_ H]. apply C in H. destruct H as [nodes H]. discriminate.
  - split.
    + intros [node H]. discriminate.
    + intros [[stamp H] _]. discriminate.
Qed.

(** X10: the second part of [Print] returns nil exactly when the validator
    accepts the tree and every timestamp, of the document and of its suites,
    can be formatted; whenever it returns an error, standard output is as it
    was. *)
Theorem X10_print_tail_succeeds_iff
  (writeIndented : string -> string -> Node -> string)
  (ts : Testsuites) (w : World) :
  (fst (printTestsuites writeIndented ts w) = None <->
   checkPropertyValidity ts = None /\
   stampOk (Testsuites.Timestamp ts) /\
   forall s, In s (Testsuites.Testsuites ts) ->
             stampOk (Testsuite.Timestamp s)) /\
  (fst (printTestsuites writeIndented ts w) <> None ->
   stdout (snd (printTestsuites writeIndented ts w)) = stdout w).
Proof.
  split.
  - rewrite <- marshalTestsuites_ok.
    unfold printTestsuites, getReport, MarshalIndent.
    destruct (checkPropertyValidity ts) as [e|].
    + cbn [fst]. split; [discriminate | intros [H _]; discriminate].
    + destruct (marshalTestsuites ts) as [node|e]; cbn [fst]; split; eauto.
      * discriminate.
      * intros [_ [node H]]. discriminate.
  - destruct (printTestsuites writeIndented ts w) as [[e|] w'] eqn:P;
      cbn [fst snd]; [|congruence].
    intros _. exact (@printTestsuites_error writeIndented ts e w w' P).
Qed.

(** *** The tree written by Print *)

Lemma builtFrom_node (r : Report) (tc : Testcase) :
  builtFrom r tc -> testcaseNode tc = reportNode r.
Proof.
  unfold builtFrom, reportNode.
  generalize (normalizePath (FilePath r)) as p. intros p B.
  destruct (IsValid r).
  - subst tc. unfold testcaseNode. cbn. now rewrite app_nil_r.
  - destruct B as (e & -> & ->). unfold testcaseNode, failureNode. cbn.
    now rewrite app_nil_r.
Qed.

Lemma builtFrom_nodes (reports : list Report) (cases : list Testcase) :
  Forall2 builtFrom reports cases ->
  map testcaseNode cases = map reportNode reports.
Proof.
  induction 1 as [|r tc reports cases B _ IH]; simpl.
  - reflexivity.
  - now rewrite (@builtFrom_node r tc B), IH.
Qed.

(** X11: for an input that meets the contract, the tree [Print] hands to the
    printer is the root [testsuites] with the tool's name and, unless the
    input is empty, [tests]; inside it one [testsuite] with the tool's name
    and, unless every record is valid, [errors]; inside it one [testcase]
    per record, in order, with [name], [classname], [file] unless the path
    is empty and, for an invalid record, a [failure] child whose [message]
    child holds the error text unless that text is empty. *)
Theorem X11_printed_tree (reports : list Report) :
  inputContract reports ->
  fitsInt reports ->
  exists ts,
    buildTestsuites reports = Returns ts /\
    marshalTestsuites ts
    = Ok (Element "testsuites"
            (("name", SString "config-file-validator")
             :: unlessEmpty (Z.of_nat (List.length reports) =? 0) "tests"
                  (SInt (Z.of_nat (List.length reports))))
            [Element "testsuite"
               (("name", SString "config-file-validator")
                :: unlessEmpty (Z.of_nat (countInvalid reports) =? 0) "errors"
                     (SInt (Z.of_nat (countInvalid reports))))
               (map reportNode reports)]).
Proof.
  intros H Hfit.
  destruct (buildTestsuites_returns H) as (cases & n' & L & E & F).
  exists (newTestsuites (GoInt.len reports) [newTestsuite cases n']).
  split; [exact E|].
  apply printLoop_counts in L; [|lia|exact Hfit]. rewrite Z.add_0_l in L.
  subst n'.
  rewrite marshalTestsuites_node. cbn [newTestsuites Testsuites.Timestamp
    Testsuites.Testsuites timestampAttr map collect].
  rewrite marshalTestsuite_node. cbn [newTestsuite Testsuite.Timestamp
    timestampAttr].
  unfold testsuitesNode, testsuiteNode, GoInt.len.
  cbn [newTestsuites newTestsuite Testsuites.Name Testsuites.Tests
       Testsuites.Failures Testsuites.Errors Testsuites.Skipped
       Testsuites.Assertions Testsuites.Time Testsuite.Name Testsuite.Tests
       Testsuite.Failures Testsuite.Errors Testsuite.Skipped
       Testsuite.Assertions Testsuite.Time Testsuite.File
       Testsuite.Testcases Testsuite.Properties Testsuite.SystemOut
       Testsuite.SystemErr casesNodes propertiesNodes pointee].
  rewrite (@builtFrom_nodes reports cases F), !app_nil_r.
  reflexivity.
Qed.

Lemma X11_witness :
  inputContract sampleReports /\ fitsInt sampleReports /\
  exists ts,
    buildTestsuites sampleReports = Returns ts /\
    marshalTestsuites ts
    = Ok (Element "testsuites"
            (("name", SString "config-file-validator")
             :: unlessEmpty (Z.of_nat (List.length sampleReports) =? 0) "tests"
                  (SInt (Z.of_nat (List.length sampleReports))))
            [Element "testsuite"
               (("name", SString "config-file-validator")
                :: unlessEmpty (Z.of_nat (countInvalid sampleReports) =? 0)
                     "errors" (SInt (Z.of_nat (countInvalid sampleReports))))
               (map reportNode sampleReports)]).
Proof.
  split; [exact sampleReports_contract|].
  split; [exact sampleReports_fitsInt|].
  exact (@X11_printed_tree sampleReports sampleReports_contract
           sampleReports_fitsInt).
Defined.
